(** * Flow documents in YAML: the reader, the error humanizer and the writer

    A shallow embedding of [rasa/shared/core/flows/yaml_flows_io.py]:
    [YAMLFlowsReader] ([read_from_file], [humanize_flow_error] with its
    local helpers, [read_from_string]), [YamlFlowsWriter] ([dumps], [dump]),
    [flows_from_str] and [is_flows_file].

    Python values are embedded as a small tree type, Python exceptions as
    values of an error monad, and the modules the file imports
    ([rasa.shared.utils.io], [rasa.shared.utils.validation], [Flow],
    [FlowsList]) as the fields of an interface class. *)

From Stdlib Require Import String Ascii List ZArith Bool Lia.
From Stdlib Require Import Permutation Sorted DecimalString.
From Stdlib Require OrderedTypeEx.
Import ListNotations.
Open Scope string_scope.
Set Warnings "-register-all".

(* ================================================================== *)
(** ** Python values *)

(** The values a parsed JSON schema or YAML document is made of.  A float is
    carried with the text [repr] gives it; float arithmetic is not modelled.
    Mappings keep their insertion order, as Python dictionaries do, and are
    keyed by strings, as the mappings of a JSON schema are. *)
Inductive value : Type :=
| VNone
| VBool (b : bool)
| VInt (z : Z)
| VFloat (shown : string)
| VStr (s : string)
| VList (items : list value)
| VDict (entries : list (string * value)).

Definition dict : Type := list (string * value).

(** [Union[Text, Path]]: a file name is a string or a [pathlib.Path]. *)
Inductive pathlike : Type :=
| PathText (s : string)
| PathObj (s : string).

Definition str_of_path (p : pathlike) : string :=
  match p with PathText s => s | PathObj s => s end.

(* ================================================================== *)
(** ** Exceptions and the error monad *)

(** The exception classes the code can meet.  [YamlException] and its
    subclasses are what [except YamlException] catches; these and the other
    [RasaException] classes are what [except RasaException] catches. *)
Inductive exc_class : Type :=
| YamlException
| YamlExceptionSubclass (name : string)
| RasaException
| RasaExceptionSubclass (name : string)
| AttributeError
| KeyError
| TypeError
| OtherException (name : string).

(** An exception object: its class, the [filename] attribute, the
    [__cause__] set by [raise ... from ...], and its message. *)
Inductive exception : Type :=
| Exc (cls : exc_class) (filename : option pathlike)
      (cause : option exception) (msg : string).

Definition exc_cls (e : exception) : exc_class :=
  match e with Exc c _ _ _ => c end.
Definition exc_filename (e : exception) : option pathlike :=
  match e with Exc _ f _ _ => f end.
Definition exc_cause (e : exception) : option exception :=
  match e with Exc _ _ c _ => c end.

(** [isinstance(e, YamlException)] *)
Definition is_YamlException (e : exception) : bool :=
  match exc_cls e with
  | YamlException | YamlExceptionSubclass _ => true
  | _ => false
  end.

(** [isinstance(e, RasaException)] *)
Definition is_RasaException (e : exception) : bool :=
  match exc_cls e with
  | YamlException | YamlExceptionSubclass _
  | RasaException | RasaExceptionSubclass _ => true
  | _ => false
  end.

(** [e.filename = p] *)
Definition set_filename (e : exception) (p : pathlike) : exception :=
  match e with Exc c _ k m => Exc c (Some p) k m end.

(** Modelled from the spec: the constructor [YamlException(filename)] of
    [rasa.shared.exceptions], whose class declaration is not part of this
    file: a generic failure to read the document at that path. *)
Definition new_YamlException (p : pathlike) : exception :=
  Exc YamlException (Some p) None "".

(** [raise new from e] *)
Definition raise_from (new e : exception) : exception :=
  match new with Exc c f _ m => Exc c f (Some e) m end.

Inductive result (A : Type) : Type :=
| Ok (a : A)
| Raise (e : exception).
Arguments Ok {A} a.
Arguments Raise {A} e.

Definition bind {A B} (c : result A) (k : A -> result B) : result B :=
  match c with
  | Ok a => k a
  | Raise e => Raise e
  end.

Notation "x <- c ;; k" := (bind c (fun x => k))
  (at level 61, c at next level, right associativity).

Definition builtin_error {A} (c : exc_class) : result A :=
  Raise (Exc c None None "").

(* ================================================================== *)
(** ** Builtins: dictionaries, truth, iteration, [str], [sorted], [join] *)

Fixpoint dict_lookup (d : dict) (k : string) : option value :=
  match d with
  | [] => None
  | (k', v) :: rest => if String.eqb k' k then Some v else dict_lookup rest k
  end.

(** [d.get(k, default)] *)
Definition dict_get (d : dict) (k : string) (default : value) : value :=
  match dict_lookup d k with
  | Some v => v
  | None => default
  end.

(** [x.get(k, default)] on any value: only mappings have the method. *)
Definition py_get (x : value) (k : string) (default : value) : result value :=
  match x with
  | VDict d => Ok (dict_get d k default)
  | _ => builtin_error AttributeError
  end.

Definition dict_keys (d : dict) : list string := map fst d.

(** [d[k] = v]: an existing key keeps its place and takes the new value, a
    new key goes to the end. *)
Fixpoint dict_set (d : dict) (k : string) (v : value) : dict :=
  match d with
  | [] => [(k, v)]
  | (k', v') :: rest =>
      if String.eqb k' k then (k', v) :: rest
      else (k', v') :: dict_set rest k v
  end.

Fixpoint dict_remove (d : dict) (k : string) : dict :=
  match d with
  | [] => []
  | (k', v) :: rest =>
      if String.eqb k' k then rest else (k', v) :: dict_remove rest k
  end.

(** [del d[k]] *)
Definition dict_del (d : dict) (k : string) : result dict :=
  match dict_lookup d k with
  | Some _ => Ok (dict_remove d k)
  | None => builtin_error KeyError
  end.

(** Truth value of an object, as [if x] and [x := ...] test it. *)
Definition truthy (x : value) : bool :=
  match x with
  | VNone => false
  | VBool b => b
  | VInt z => negb (Z.eqb z 0)
  | VFloat s => negb (String.eqb s "0.0" || String.eqb s "-0.0")
  | VStr s => negb (String.eqb s "")
  | VList l => match l with [] => false | _ => true end
  | VDict d => match d with [] => false | _ => true end
  end.

(** [isinstance(x, int)]: [bool] is a subclass of [int]. *)
Definition is_int (x : value) : bool :=
  match x with
  | VInt _ | VBool _ => true
  | _ => false
  end.

Definition is_dict (x : value) : bool :=
  match x with VDict _ => true | _ => false end.

Definition is_list (x : value) : bool :=
  match x with VList _ => true | _ => false end.

Fixpoint chars (s : string) : list string :=
  match s with
  | EmptyString => []
  | String c rest => String c EmptyString :: chars rest
  end.

(** [for x in v]: the elements of a list, the keys of a mapping, the
    characters of a string; other values are not iterable. *)
Definition py_iter (v : value) : result (list value) :=
  match v with
  | VList l => Ok l
  | VDict d => Ok (map VStr (dict_keys d))
  | VStr s => Ok (map VStr (chars s))
  | _ => builtin_error TypeError
  end.

Definition squote : ascii := ascii_of_nat 39.
Definition dquote : ascii := ascii_of_nat 34.
Definition backslash : ascii := ascii_of_nat 92.

Fixpoint contains (c : ascii) (s : string) : bool :=
  match s with
  | EmptyString => false
  | String c' rest => Ascii.eqb c' c || contains c rest
  end.

Definition hex_digit (n : nat) : string :=
  match String.get n "0123456789abcdef" with
  | Some c => String c EmptyString
  | None => "0"
  end.

Definition repr_char (q c : ascii) : string :=
  let n := nat_of_ascii c in
  if Ascii.eqb c q || Ascii.eqb c backslash then
    String backslash (String c EmptyString)
  else if Nat.eqb n 10 then String backslash "n"
  else if Nat.eqb n 13 then String backslash "r"
  else if Nat.eqb n 9 then String backslash "t"
  else if Nat.ltb n 32 || Nat.eqb n 127 then
    String backslash ("x" ++ hex_digit (n / 16) ++ hex_digit (n mod 16))
  else String c EmptyString.

Fixpoint repr_chars (q : ascii) (s : string) : string :=
  match s with
  | EmptyString => EmptyString
  | String c rest => repr_char q c ++ repr_chars q rest
  end.

(** [repr] of a string: single quotes, unless the text has a single quote
    and no double quote.  Bytes above 127 stand for the UTF-8 encoding of
    printable characters and are kept as they are. *)
Definition repr_str (s : string) : string :=
  let q := if contains squote s && negb (contains dquote s)
           then dquote else squote in
  String q (repr_chars q s ++ String q EmptyString).

Definition str_of_Z (z : Z) : string := NilZero.string_of_int (Z.to_int z).

Fixpoint py_repr (v : value) : string :=
  match v with
  | VNone => "None"
  | VBool true => "True"
  | VBool false => "False"
  | VInt z => str_of_Z z
  | VFloat s => s
  | VStr s => repr_str s
  | VList l => "[" ++ String.concat ", " (map py_repr l) ++ "]"
  | VDict d =>
      "{" ++ String.concat ", "
               (map (fun kv => let '(k, x) := kv in
                               repr_str k ++ ": " ++ py_repr x) d) ++ "}"
  end.

(** [str(x)], which is also what an f-string field [{x}] renders. *)
Definition py_str (v : value) : string :=
  match v with
  | VStr s => s
  | _ => py_repr v
  end.

Fixpoint insert_sorted (x : string) (l : list string) : list string :=
  match l with
  | [] => [x]
  | y :: rest =>
      if String.leb x y then x :: l else y :: insert_sorted x rest
  end.

(** [sorted(l)] on strings: ascending in the code-point order, which on
    UTF-8 text is the byte order of [String.leb].  Equal strings are
    indistinguishable, so stability is not observable. *)
Definition sorted (l : list string) : list string :=
  fold_right insert_sorted [] l.

(** The order [sorted] puts strings in. *)
Definition ascending (a b : string) : Prop := String.leb a b = true.

(** The strings of a list of values, when all of them are strings. *)
Fixpoint all_strings (l : list value) : option (list string) :=
  match l with
  | [] => Some []
  | VStr s :: rest =>
      match all_strings rest with
      | Some ss => Some (s :: ss)
      | None => None
      end
  | _ :: _ => None
  end.

(** [sep.join(sorted(l))]: a list with an element that is not a string
    raises [TypeError], in [sorted] when unlike elements are compared and in
    [join] otherwise. *)
Definition join_sorted (sep : string) (l : list value) : result string :=
  match all_strings l with
  | Some ss => Ok (String.concat sep (sorted ss))
  | None => builtin_error TypeError
  end.

(* ================================================================== *)
(** ** [YAMLFlowsReader.humanize_flow_error] *)

(** A [jsonschema.ValidationError] as the humanizer reads it: the keyword
    that failed ([validator]), the path to the offending value
    ([absolute_path], property names and list indices), the mapping schema
    that carries the keyword, the offending [instance], the library's own
    [message] and the rendered [json_path]. *)
Record ValidationError : Type := {
  validator : string;
  absolute_path : list value;
  schema : dict;
  instance : value;
  message : string;
  json_path : string
}.

(** [path[-1]] and [path[-2]] of a list. *)
Definition last_item (path : list value) : option value :=
  match rev path with
  | x :: _ => Some x
  | [] => None
  end.

Definition second_to_last_item (path : list value) : option value :=
  match rev path with
  | _ :: y :: _ => Some y
  | _ => None
  end.

Definition faulty_property (path : list value) : value :=
  match last_item path with
  | None => VStr "schema"
  | Some final =>
      if is_int final then
        match second_to_last_item path with
        | Some owner => owner
        | None => VStr "list"
        end
      else VStr (py_str final)
  end.

Definition schema_name (schema : value) : result value :=
  fallback <- py_get schema "type" VNone ;;
  py_get schema "schema_name" fallback.

Fixpoint schema_names_loop (schemas : list value) (names : list value)
  : result (list value) :=
  match schemas with
  | [] => Ok names
  | schema :: rest =>
      name <- schema_name schema ;;
      if truthy name then schema_names_loop rest (names ++ [name])%list
      else schema_names_loop rest names
  end.

Definition schema_names (schemas : value) : result (list value) :=
  items <- py_iter schemas ;;
  schema_names_loop items [].

Definition expected_schema (error : ValidationError) (schema_type : string)
  : result string :=
  let expected_schemas := dict_get (schema error) schema_type (VList []) in
  expected <- schema_names expected_schemas ;;
  match expected with
  | _ :: _ => join_sorted " or " expected
  | [] => Ok (py_str (VDict (schema error)))
  end.

Definition format_oneof_error (error : ValidationError) : result string :=
  let property := py_str (faulty_property (absolute_path error)) in
  expected <- expected_schema error "oneOf" ;;
  Ok ("Not a valid '" ++ property ++ "' definition. "
      ++ "Expected " ++ expected ++ ".").

Definition format_anyof_error (error : ValidationError) : result string :=
  let property := py_str (faulty_property (absolute_path error)) in
  expected <- expected_schema error "anyOf" ;;
  Ok ("Not a valid '" ++ property ++ "' definition. "
      ++ "Expected " ++ expected ++ ".").

(** The text [format_type_error] puts for the offending value. *)
Definition describe_instance (x : value) : string :=
  if is_dict x then "a dictionary"
  else if is_list x then "a list"
  else "`" ++ py_str x ++ "`".

Definition format_type_error (error : ValidationError) : result string :=
  expected_value <- schema_name (VDict (schema error)) ;;
  Ok ("Found " ++ describe_instance (instance error)
      ++ " but expected a " ++ py_str expected_value ++ ".").

Definition humanize_flow_error (error : ValidationError) : result string :=
  if String.eqb (validator error) "oneOf" then format_oneof_error error
  else if String.eqb (validator error) "anyOf" then format_anyof_error error
  else if String.eqb (validator error) "type" then format_type_error error
  else if String.eqb (validator error) "additionalProperties" then
    Ok (message error)
  else if String.eqb (validator error) "required" then Ok (message error)
  else Ok ("The flow at " ++ json_path error ++ " is not valid. "
           ++ "Please double check your flow definition.").

(* ================================================================== *)
(** ** The modules the reader and the writer call into *)

(** What the file imports and calls but does not define:
    [rasa.shared.utils.io] ([read_file], [read_yaml],
    [dump_obj_as_yaml_to_string], [DEFAULT_ENCODING]),
    [rasa.shared.utils.validation] ([validate_yaml_with_jsonschema], which
    takes the humanizer as a callback), and the classes [Flow] and
    [FlowsList].  Each call either returns or raises. *)
Class Collaborators : Type := {
  Flow : Type;
  FlowsList : Type;
  DEFAULT_ENCODING : string;
  read_file : pathlike -> string -> result string;
  read_yaml : string -> result value;
  dump_obj_as_yaml_to_string : value -> string;
  validate_yaml_with_jsonschema :
    string -> string -> (ValidationError -> result string) -> result unit;
  FlowsList_from_json : value -> result FlowsList;
  FlowsList_validate : FlowsList -> result unit;
  underlying_flows : FlowsList -> list Flow;
  Flow_from_json : string -> value -> result Flow;
  flow_id : Flow -> string;
  as_json : Flow -> dict
}.

Definition FLOWS_SCHEMA_FILE : string :=
  "shared/core/flows/flows_yaml_schema.json".
Definition KEY_FLOWS : string := "flows".

Section Reader.
Context {C : Collaborators}.

(** The calls a read makes into its collaborators, in order. *)
Inductive call : Type :=
| CallReadFile (filename : pathlike) (encoding : string)
| CallValidateSchema (content : string) (schema_file : string)
| CallReadYaml (content : string)
| CallFromJson (data : value)
| CallValidateFlows (flows : FlowsList).

(** A computation that may raise and that records its calls. *)
Definition traced (A : Type) : Type := list call -> result A * list call.

Definition tret {A} (a : A) : traced A := fun log => (Ok a, log).

Definition tbind {A B} (c : traced A) (k : A -> traced B) : traced B :=
  fun log =>
    match c log with
    | (Ok a, log') => k a log'
    | (Raise e, log') => (Raise e, log')
    end.

(** Make the call [ev], whose outcome is [r]. *)
Definition invoke {A} (ev : call) (r : result A) : traced A :=
  fun log => (r, (log ++ [ev])%list).

(** A step of the code itself: no call is recorded. *)
Definition lift {A} (r : result A) : traced A := fun log => (r, log).

(** [try: body  except ... as e: handler e] where every handler raises. *)
Definition try_except {A} (body : traced A) (handler : exception -> exception)
  : traced A :=
  fun log =>
    match body log with
    | (Ok a, log') => (Ok a, log')
    | (Raise e, log') => (Raise (handler e), log')
    end.

Definition outcome {A} (c : traced A) : result A := fst (c []).
Definition calls {A} (c : traced A) : list call := snd (c []).

Definition read_from_string (string : String.string) (skip_validation : bool)
  : traced FlowsList :=
  tbind (if negb skip_validation then
           invoke (CallValidateSchema string FLOWS_SCHEMA_FILE)
             (validate_yaml_with_jsonschema string FLOWS_SCHEMA_FILE
                humanize_flow_error)
         else tret tt) (fun _ =>
  tbind (invoke (CallReadYaml string) (read_yaml string))
    (fun yaml_content =>
  tbind (lift (py_get yaml_content KEY_FLOWS (VDict []))) (fun data =>
  tbind (invoke (CallFromJson data) (FlowsList_from_json data))
    (fun flows =>
  tbind (if negb skip_validation then
           invoke (CallValidateFlows flows) (FlowsList_validate flows)
         else tret tt) (fun _ =>
  tret flows))))).

(** The two [except] clauses of [read_from_file], tried in order; an
    exception neither clause names propagates as it is. *)
Definition on_read_error (filename : pathlike) (e : exception) : exception :=
  if is_YamlException e then
    set_filename e (PathText (str_of_path filename))
  else if is_RasaException e then
    raise_from (new_YamlException filename) e
  else e.

Definition read_from_file (filename : pathlike) (skip_validation : bool)
  : traced FlowsList :=
  try_except
    (tbind (invoke (CallReadFile filename DEFAULT_ENCODING)
              (read_file filename DEFAULT_ENCODING))
       (fun content => read_from_string content skip_validation))
    (on_read_error filename).

(* ---------------------------------------------------------------- *)
(** ** [YamlFlowsWriter.dumps] *)

Fixpoint dumps_loop (flows : list Flow) (dump : dict) : result dict :=
  match flows with
  | [] => Ok dump
  | flow :: rest =>
      dumped_flow <- dict_del (as_json flow) "id" ;;
      dumps_loop rest (dict_set dump (flow_id flow) (VDict dumped_flow))
  end.

Definition dumps (flows : list Flow) : result String.string :=
  dump <- dumps_loop flows [] ;;
  Ok (dump_obj_as_yaml_to_string (VDict [(KEY_FLOWS, VDict dump)])).

End Reader.

(* ================================================================== *)
(** ** The specification's wording, for comparison with the code *)

(** The display name as the specification words it: [schema_name] when
    present and non-empty, else [type] when present, else absent
    ([VNone]). *)
Definition spec_displayName (d : dict) : value :=
  match dict_lookup d "schema_name" with
  | Some (VStr "") | None =>
      match dict_lookup d "type" with
      | Some t => t
      | None => VNone
      end
  | Some v => v
  end.

(** The alternative list as the specification words it: the sorted,
    deduplicated set of names joined by [" or "]. *)
Definition spec_alternatives (names : list string) : string :=
  String.concat " or " (sorted (nodup string_dec names)).

(** The faulty property as the specification's invariant words it: the last
    path segment that is not an integer index, ["list"] when a non-empty
    path has none, ["schema"] for the empty path. *)
Definition spec_faultyProperty (path : list value) : value :=
  match path with
  | [] => VStr "schema"
  | _ :: _ =>
      match find (fun x => negb (is_int x)) (rev path) with
      | Some x => VStr (py_str x)
      | None => VStr "list"
      end
  end.

(** The names a list of alternatives declares, when every alternative is a
    mapping whose [schema_name] is a string. *)
Fixpoint declared_names (alternatives : list value) : option (list string) :=
  match alternatives with
  | [] => Some []
  | VDict d :: rest =>
      match dict_lookup d "schema_name", declared_names rest with
      | Some (VStr n), Some ns => Some (n :: ns)
      | _, _ => None
      end
  | _ :: _ => None
  end.

Definition nonempty (s : string) : bool := negb (String.eqb s "").

(** The sentence the one-of and any-of handlers build. *)
Definition not_a_valid (property expected : string) : string :=
  "Not a valid '" ++ property ++ "' definition. Expected " ++ expected ++ ".".

(* ================================================================== *)
(** ** Sample inputs *)

Definition step_alternatives : list value :=
  [ VDict [("required", VList [VStr "collect"]);
           ("schema_name", VStr "collect step")];
    VDict [("required", VList [VStr "action"]);
           ("schema_name", VStr "action step")];
    VDict [("required", VList [VStr "noop"]); ("schema_name", VStr "")] ].

Definition oneof_failure : ValidationError :=
  {| validator := "oneOf";
     absolute_path := [VStr "flows"; VStr "x"; VStr "steps"; VInt 0];
     schema := [("oneOf", VList step_alternatives)];
     instance := VDict [("foo", VInt 1)];
     message := "{'foo': 1} is not valid under any of the given schemas";
     json_path := "$.flows.x.steps[0]" |}.

(** Two alternatives that carry the same name. *)
Definition twin_alternatives : list value :=
  [ VDict [("schema_name", VStr "action step")];
    VDict [("schema_name", VStr "action step")] ].

Definition twin_failure : ValidationError :=
  {| validator := "anyOf";
     absolute_path := [VStr "flows"; VStr "x"; VStr "steps"; VInt 0];
     schema := [("anyOf", VList twin_alternatives)];
     instance := VDict [];
     message := "{} is not valid under any of the given schemas";
     json_path := "$.flows.x.steps[0]" |}.

(** A schema whose [schema_name] is the empty string and that has a type. *)
Definition unnamed_object_schema : dict :=
  [("schema_name", VStr ""); ("type", VStr "object")].

(** The path to an element of a list inside a list. *)
Definition nested_index_path : list value :=
  [VStr "flows"; VStr "x"; VStr "steps"; VInt 0; VInt 1].

Definition type_failure : ValidationError :=
  {| validator := "type";
     absolute_path := [VStr "flows"; VStr "greet"; VStr "steps"];
     schema := [("type", VStr "array"); ("schema_name", VStr "list of steps")];
     instance := VStr "not-a-list";
     message := "'not-a-list' is not of type 'array'";
     json_path := "$.flows.greet.steps" |}.

Definition required_failure : ValidationError :=
  {| validator := "required";
     absolute_path := [VStr "flows"; VStr "greet"];
     schema := [("required", VList [VStr "steps"])];
     instance := VDict [];
     message := "'steps' is a required property";
     json_path := "$.flows.greet" |}.

Definition enum_failure : ValidationError :=
  {| validator := "enum";
     absolute_path := [VStr "flows"; VStr "greet"; VStr "kind"];
     schema := [("enum", VList [VStr "a"; VStr "b"])];
     instance := VStr "c";
     message := "'c' is not one of ['a', 'b']";
     json_path := "$.flows.greet.kind" |}.

(* ================================================================== *)
(** ** What the round trip asks of the collaborators *)

(** Two values that differ at most in the order of the keys of their
    mappings, at any depth. *)
Inductive key_order_equiv : value -> value -> Prop :=
| koe_same (v : value) : key_order_equiv v v
| koe_list (l l' : list value) :
    Forall2 key_order_equiv l l' -> key_order_equiv (VList l) (VList l')
| koe_dict (d p d' : dict) :
    Permutation d p ->
    Forall2 (fun a b => fst a = fst b /\ key_order_equiv (snd a) (snd b))
            p d' ->
    key_order_equiv (VDict d) (VDict d').

Section RoundTripContracts.
Context {C : Collaborators}.

(** Modelled from the spec: [FlowsList.from_json] and [Flow.from_json]
    live in modules that are not part of this file.  The collection is
    built from the entries of the [flows] mapping, each flow parsed from
    its body with the identifier taken from the mapping key. *)
Fixpoint parse_entries (items : dict) : result (list Flow) :=
  match items with
  | [] => Ok []
  | (key, body) :: rest =>
      flow <- Flow_from_json key body ;;
      flows <- parse_entries rest ;;
      Ok (flow :: flows)
  end.

Definition builds_from_entries : Prop :=
  forall items,
    (fl <- FlowsList_from_json (VDict items) ;; Ok (underlying_flows fl))
    = parse_entries items.

(** Modelled from the spec: parsing is the inverse of [as_json] once the
    identifier has moved to the key, whatever the order of the keys. *)
Definition parse_inverts_as_json (flow : Flow) : Prop :=
  exists body,
    dict_del (as_json flow) "id" = Ok body /\
    forall body', key_order_equiv (VDict body) body' ->
                  Flow_from_json (flow_id flow) body' = Ok flow.

(** Modelled from the spec: reading back the YAML text written for [o]
    gives [o] again up to key order. *)
Definition yaml_reads_back (o : value) : Prop :=
  exists o', read_yaml (dump_obj_as_yaml_to_string o) = Ok o' /\
             key_order_equiv o o'.

(** The text passes the schema check of [read_from_string]. *)
Definition schema_accepts (text : string) : Prop :=
  validate_yaml_with_jsonschema text FLOWS_SCHEMA_FILE humanize_flow_error
  = Ok tt.

(** The entry [dumps] writes for a flow. *)
Definition entry_of (flow : Flow) : string * value :=
  (flow_id flow, VDict (dict_remove (as_json flow) "id")).

End RoundTripContracts.

(* ================================================================== *)
(** ** A small implementation of the collaborators, for concrete runs *)

Record toy_flow : Type := { toy_id : string; toy_body : dict }.

Definition toy_as_json (f : toy_flow) : dict :=
  ("id", VStr (toy_id f)) :: toy_body f.

Definition toy_from_json (key : string) (body : value) : result toy_flow :=
  match body with
  | VDict b => Ok {| toy_id := key; toy_body := b |}
  | _ => Raise (Exc (RasaExceptionSubclass "FlowSyntaxException")
                    None None "a flow is a mapping")
  end.

Fixpoint toy_parse_entries (items : dict) : result (list toy_flow) :=
  match items with
  | [] => Ok []
  | (key, body) :: rest =>
      flow <- toy_from_json key body ;;
      flows <- toy_parse_entries rest ;;
      Ok (flow :: flows)
  end.

Definition toy_flows_from_json (data : value) : result (list toy_flow) :=
  match data with
  | VDict items => toy_parse_entries items
  | _ => Ok []
  end.

Definition greet_body : dict := [("description", VStr "say hello")].
Definition greet : toy_flow := {| toy_id := "greet"; toy_body := greet_body |}.
Definition greet_again : toy_flow :=
  {| toy_id := "greet"; toy_body := [("description", VStr "say hello twice")] |}.

Definition greet_document : value :=
  VDict [("flows", VDict [("greet", VDict greet_body)])].

Definition greet_text : string :=
  "{'flows': {'greet': {'description': 'say hello'}}}".

Definition yaml_syntax_error : exception :=
  Exc (YamlExceptionSubclass "YamlSyntaxException") None None
      "Failed to read YAML.".

Definition file_io_error : exception :=
  Exc (RasaExceptionSubclass "FileNotFoundException") None None
      "Failed to read file, 'missing.yml' does not exist.".

(** Reads the flow-style text of [greet_document], a document without the
    [flows] key and a sequence; anything else is not YAML. *)
Definition toy_read_yaml (text : string) : result value :=
  if String.eqb text greet_text then Ok greet_document
  else if String.eqb text "{}" then Ok (VDict [])
  else if String.eqb text "[]" then Ok (VList [])
  else Raise yaml_syntax_error.

Definition toy_read_file (p : pathlike) (encoding : string) : result string :=
  if String.eqb (str_of_path p) "flows.yml" then Ok greet_text
  else if String.eqb (str_of_path p) "broken.yml" then Ok "{"
  else Raise file_io_error.

Definition toy : Collaborators := {|
  Flow := toy_flow;
  FlowsList := list toy_flow;
  DEFAULT_ENCODING := "utf-8";
  read_file := toy_read_file;
  read_yaml := toy_read_yaml;
  dump_obj_as_yaml_to_string := py_repr;
  validate_yaml_with_jsonschema := fun _ _ _ => Ok tt;
  FlowsList_from_json := toy_flows_from_json;
  FlowsList_validate := fun _ => Ok tt;
  underlying_flows := fun fl => fl;
  Flow_from_json := toy_from_json;
  flow_id := toy_id;
  as_json := toy_as_json
|}.

(* ================================================================== *)
(** ** The other entry points of the module *)

(** The calls [YamlFlowsWriter.dump] and [is_flows_file] make into
    [rasa.shared.utils.io] and [rasa.shared.data]. *)
Inductive io_call : Type :=
| CallWriteTextFile (content : string) (filename : pathlike)
| CallIsLikelyYamlFile (file_path : pathlike)
| CallIsKeyInYaml (file_path : pathlike) (key : string).

Section EntryPoints.
Context {C : Collaborators}.

(** [rasa.shared.utils.io.write_text_file], [is_key_in_yaml],
    [rasa.shared.data.is_likely_yaml_file] and [textwrap.dedent]. *)
Variable write_text_file : string -> pathlike -> result unit.
Variable is_likely_yaml_file : pathlike -> result bool.
Variable is_key_in_yaml : pathlike -> string -> result bool.
Variable dedent : string -> string.

(** [YamlFlowsWriter.dump]: the argument [dumps(flows)] is evaluated before
    [write_text_file] is called. *)
Definition dump (flows : list Flow) (filename : pathlike)
  : result unit * list io_call :=
  match dumps flows with
  | Ok text =>
      (write_text_file text filename, [CallWriteTextFile text filename])
  | Raise e => (Raise e, [])
  end.

Definition flows_from_str (yaml_str : string) : traced FlowsList :=
  read_from_string (dedent yaml_str) false.

(** [a and b] evaluates [b] only when [a] is true. *)
Definition is_flows_file (file_path : pathlike)
  : result bool * list io_call :=
  match is_likely_yaml_file file_path with
  | Ok true =>
      (is_key_in_yaml file_path KEY_FLOWS,
       [CallIsLikelyYamlFile file_path; CallIsKeyInYaml file_path KEY_FLOWS])
  | Ok false => (Ok false, [CallIsLikelyYamlFile file_path])
  | Raise e => (Raise e, [CallIsLikelyYamlFile file_path])
  end.

End EntryPoints.

(** The name the humanizer shows for a mapping schema. *)
Definition shown_name (d : dict) : value :=
  dict_get d "schema_name" (dict_get d "type" VNone).

Definition is_str (x : value) : bool :=
  match x with VStr _ => true | _ => false end.

(** A path as [jsonschema] builds it: property names and list indices. *)
Definition is_segment (x : value) : bool :=
  match x with VStr _ | VInt _ => true | _ => false end.

(** No list index of the path follows another list index. *)
Fixpoint no_adjacent_indices (path : list value) : bool :=
  match path with
  | x :: (y :: _) as rest =>
      negb (is_int x && is_int y) && no_adjacent_indices rest
  | _ => true
  end.

(** ** More sample inputs *)

(** Alternatives without a [schema_name]; the type of the first is a list
    of type names. *)
Definition union_alternatives : list dict :=
  [ [("type", VList [VStr "string"; VStr "null"])];
    [("type", VStr "object")] ].

Definition union_failure : ValidationError :=
  {| validator := "oneOf";
     absolute_path := [VStr "flows"; VStr "x"; VStr "if"];
     schema := [("oneOf", VList (map VDict union_alternatives))];
     instance := VInt 3;
     message := "3 is not valid under any of the given schemas";
     json_path := "$.flows.x.if" |}.

(** Alternatives of which one is the boolean schema [true]. *)
Definition boolean_alternatives : list value :=
  [ VDict [("schema_name", VStr "action step")]; VBool true ].

Definition boolean_failure : ValidationError :=
  {| validator := "anyOf";
     absolute_path := [VStr "flows"];
     schema := [("anyOf", VList boolean_alternatives)];
     instance := VInt 3;
     message := "3 is not valid under any of the given schemas";
     json_path := "$.flows" |}.

(** The alternatives of [oneof_failure] in another order. *)
Definition oneof_failure_reordered : ValidationError :=
  {| validator := "oneOf";
     absolute_path := [VStr "flows"; VStr "x"; VStr "steps"; VInt 0];
     schema := [("oneOf", VList (rev step_alternatives))];
     instance := VDict [("foo", VInt 1)];
     message := "{'foo': 1} is not valid under any of the given schemas";
     json_path := "$.flows.x.steps[0]" |}.

Definition farewell : toy_flow :=
  {| toy_id := "farewell"; toy_body := [("description", VStr "say bye")] |}.

(** Collaborators whose flows carry no [id] in their mapping form. *)
Definition toy_without_id : Collaborators := {|
  Flow := toy_flow;
  FlowsList := list toy_flow;
  DEFAULT_ENCODING := "utf-8";
  read_file := toy_read_file;
  read_yaml := toy_read_yaml;
  dump_obj_as_yaml_to_string := py_repr;
  validate_yaml_with_jsonschema := fun _ _ _ => Ok tt;
  FlowsList_from_json := toy_flows_from_json;
  FlowsList_validate := fun _ => Ok tt;
  underlying_flows := fun fl => fl;
  Flow_from_json := toy_from_json;
  flow_id := toy_id;
  as_json := toy_body
|}.

Definition schema_error : exception :=
  Exc (YamlExceptionSubclass "YamlValidationException") None None
      "Found `not-a-list` but expected a list of steps.".

Definition semantic_error : exception :=
  Exc (RasaExceptionSubclass "UnreachableFlowStepException") None None
      "Step is not reachable.".

(** Collaborators that reject every text at the schema check. *)
Definition toy_rejecting : Collaborators := {|
  Flow := toy_flow;
  FlowsList := list toy_flow;
  DEFAULT_ENCODING := "utf-8";
  read_file := toy_read_file;
  read_yaml := toy_read_yaml;
  dump_obj_as_yaml_to_string := py_repr;
  validate_yaml_with_jsonschema := fun _ _ _ => Raise schema_error;
  FlowsList_from_json := toy_flows_from_json;
  FlowsList_validate := fun _ => Ok tt;
  underlying_flows := fun fl => fl;
  Flow_from_json := toy_from_json;
  flow_id := toy_id;
  as_json := toy_as_json
|}.

(** Collaborators whose flows never pass the semantic validation. *)
Definition toy_invalid : Collaborators := {|
  Flow := toy_flow;
  FlowsList := list toy_flow;
  DEFAULT_ENCODING := "utf-8";
  read_file := toy_read_file;
  read_yaml := toy_read_yaml;
  dump_obj_as_yaml_to_string := py_repr;
  validate_yaml_with_jsonschema := fun _ _ _ => Ok tt;
  FlowsList_from_json := toy_flows_from_json;
  FlowsList_validate := fun _ => Raise semantic_error;
  underlying_flows := fun fl => fl;
  Flow_from_json := toy_from_json;
  flow_id := toy_id;
  as_json := toy_as_json
|}.

(** A file of the sequence ["[]"], for the other sample files see
    [toy_read_file]. *)
Definition toy_list_file : Collaborators := {|
  Flow := toy_flow;
  FlowsList := list toy_flow;
  DEFAULT_ENCODING := "utf-8";
  read_file := fun _ _ => Ok "[]";
  read_yaml := toy_read_yaml;
  dump_obj_as_yaml_to_string := py_repr;
  validate_yaml_with_jsonschema := fun _ _ _ => Ok tt;
  FlowsList_from_json := toy_flows_from_json;
  FlowsList_validate := fun _ => Ok tt;
  underlying_flows := fun fl => fl;
  Flow_from_json := toy_from_json;
  flow_id := toy_id;
  as_json := toy_as_json
|}.

(** The failure behaviour of [read_from_file] as the specification words
    it: whenever it fails, what it raises is a classified ([YamlException])
    error with the path of the source file attached. *)
Definition spec_read_failure_classified {C : Collaborators} : Prop :=
  forall (filename : pathlike) (skip_validation : bool) (e : exception),
    outcome (read_from_file filename skip_validation) = Raise e ->
    is_YamlException e = true /\
    option_map str_of_path (exc_filename e) = Some (str_of_path filename).

(* ================================================================== *)
(** * Properties *)

(** ** Dictionaries and sorting *)

Lemma dict_lookup_None (d : dict) (k : string) :
  dict_lookup d k = None <-> ~ In k (dict_keys d).
Proof.
  induction d as [|[k' v] d IH]; simpl.
  - tauto.
  - destruct (String.eqb_spec k' k) as [->|Hne].
    + split; [discriminate | intros H; exfalso; apply H; now left].
    + rewrite IH. split.
      * intros H [E|I]; [now apply Hne | now apply H].
      * intros H I. apply H. now right.
Qed.

Lemma dict_lookup_In (d : dict) (k : string) (v : value) :
  dict_lookup d k = Some v -> In (k, v) d.
Proof.
  induction d as [|[k' v'] d IH]; simpl; [discriminate|].
  destruct (String.eqb_spec k' k) as [->|Hne].
  - intros [= ->]. now left.
  - intros H. right. now apply IH.
Qed.

Lemma In_dict_lookup (d : dict) (k : string) (v : value) :
  NoDup (dict_keys d) -> In (k, v) d -> dict_lookup d k = Some v.
Proof.
  induction d as [|[k' v'] d IH]; simpl; [tauto|].
  intros Hnd [E|I].
  - injection E as -> ->. now rewrite String.eqb_refl.
  - inversion Hnd as [|? ? Hfresh Hnd']; subst.
    destruct (String.eqb_spec k' k) as [->|Hne].
    + exfalso. apply Hfresh. change k with (fst (k, v)). now apply in_map.
    + now apply IH.
Qed.

Lemma insert_sorted_perm (x : string) (l : list string) :
  Permutation (insert_sorted x l) (x :: l).
Proof.
  induction l as [|y l IH]; simpl.
  - reflexivity.
  - destruct (String.leb x y).
    + reflexivity.
    + rewrite IH. apply perm_swap.
Qed.

Lemma sorted_perm (l : list string) : Permutation (sorted l) l.
Proof.
  induction l as [|x l IH]; simpl.
  - constructor.
  - rewrite insert_sorted_perm. now constructor.
Qed.

Lemma insert_sorted_ascending (x : string) (l : list string) :
  LocallySorted ascending l -> LocallySorted ascending (insert_sorted x l).
Proof.
  induction 1 as [|y|y z l Hl IH Hyz]; simpl.
  - constructor.
  - destruct (String.leb x y) eqn:E.
    + constructor; [constructor | exact E].
    + constructor; [constructor |].
      destruct (String.leb_total x y) as [H|H]; [congruence | exact H].
  - destruct (String.leb x y) eqn:E.
    + constructor; [now constructor | exact E].
    + simpl in IH. destruct (String.leb x z) eqn:E'.
      * constructor; [exact IH |].
        destruct (String.leb_total x y) as [H|H]; [congruence | exact H].
      * constructor; [exact IH | exact Hyz].
Qed.

Lemma sorted_ascending (l : list string) : LocallySorted ascending (sorted l).
Proof.
  induction l as [|x l IH]; simpl.
  - constructor.
  - now apply insert_sorted_ascending.
Qed.

(** ** The humanizer *)

Lemma all_strings_VStr (l : list string) : all_strings (map VStr l) = Some l.
Proof.
  induction l as [|x l IH]; simpl; [reflexivity | now rewrite IH].
Qed.

Lemma schema_name_dict (d : dict) :
  schema_name (VDict d)
  = Ok (dict_get d "schema_name" (dict_get d "type" VNone)).
Proof. reflexivity. Qed.

Lemma schema_names_loop_declared (alts : list value) (names : list string) :
  declared_names alts = Some names ->
  forall acc,
    schema_names_loop alts acc
    = Ok (acc ++ map VStr (filter nonempty names))%list.
Proof.
  revert names. induction alts as [|a alts IH]; intros names Hd acc.
  - injection Hd as <-. simpl. now rewrite app_nil_r.
  - simpl in Hd. destruct a as [| | | | |?|d]; try discriminate.
    destruct (dict_lookup d "schema_name") as [v|] eqn:Hn; [|discriminate].
    destruct v as [| | | |n| |]; try discriminate.
    destruct (declared_names alts) as [ns|] eqn:Hrest; [|discriminate].
    injection Hd as <-.
    cbn [schema_names_loop]. rewrite schema_name_dict.
    unfold dict_get at 1. rewrite Hn. cbn [bind truthy filter].
    unfold nonempty at 1.
    destruct (negb (n =? "")) eqn:E.
    + rewrite (IH ns eq_refl). cbn [map]. now rewrite <- app_assoc.
    + now rewrite (IH ns eq_refl).
Qed.

(** C1, as the code has it: when the alternatives under the failing
    one-of or any-of keyword all declare a [schema_name], the alternative
    list of the humanized message is made of the non-empty names, in
    ascending order and with every repetition kept, joined by [" or "];
    when no name is left the schema itself is rendered. *)
Theorem expected_schema_declared_names
    (e : ValidationError) (kw : string)
    (alts : list value) (names : list string) :
  kw = "oneOf" \/ kw = "anyOf" ->
  validator e = kw ->
  dict_get (schema e) kw (VList []) = VList alts ->
  declared_names alts = Some names ->
  let shown := filter nonempty names in
  let expected :=
    match shown with
    | [] => py_str (VDict (schema e))
    | _ :: _ => String.concat " or " (sorted shown)
    end in
  expected_schema e kw = Ok expected /\
  humanize_flow_error e
  = Ok (not_a_valid (py_str (faulty_property (absolute_path e))) expected) /\
  LocallySorted ascending (sorted shown) /\
  Permutation (sorted shown) shown.
Proof.
  intros Hkw Hval Hget Hdecl shown expected.
  assert (Hexp : expected_schema e kw = Ok expected).
  { unfold expected_schema. rewrite Hget.
    cbn [schema_names py_iter bind].
    rewrite (schema_names_loop_declared alts names Hdecl []).
    cbn [app]. fold shown. subst expected.
    destruct shown as [|n ns] eqn:Hs; [reflexivity|].
    cbn [bind map]. unfold join_sorted.
    change (VStr n :: map VStr ns) with (map VStr (n :: ns)).
    now rewrite all_strings_VStr. }
  split; [exact Hexp|]. split.
  - unfold humanize_flow_error. rewrite Hval.
    destruct Hkw as [-> | ->]; cbn [String.eqb Ascii.eqb Bool.eqb].
    + unfold format_oneof_error. now rewrite Hexp.
    + unfold format_anyof_error. now rewrite Hexp.
  - split; [apply sorted_ascending | apply sorted_perm].
Qed.

(** C1, a run: the names of the step alternatives, sorted, without the
    empty one. *)
Lemma expected_schema_declared_names_witness :
  humanize_flow_error oneof_failure
  = Ok "Not a valid 'steps' definition. Expected action step or collect step.".
Proof.
  exact (proj1 (proj2 (expected_schema_declared_names
                         oneof_failure "oneOf" step_alternatives
                         ["collect step"; "action step"; ""]
                         (or_introl eq_refl) eq_refl eq_refl eq_refl))).
Defined.

(** C1, as the specification states it, fails: two alternatives with the
    same name are both listed, where the deduplicated set has one. *)
Lemma alternatives_not_deduplicated :
  validator twin_failure = "anyOf" /\
  dict_lookup (schema twin_failure) "anyOf" = Some (VList twin_alternatives) /\
  declared_names twin_alternatives = Some ["action step"; "action step"] /\
  expected_schema twin_failure "anyOf" = Ok "action step or action step" /\
  spec_alternatives ["action step"; "action step"] = "action step" /\
  expected_schema twin_failure "anyOf"
  <> Ok (spec_alternatives ["action step"; "action step"]).
Proof.
  repeat split; try reflexivity. vm_compute. discriminate.
Qed.

Lemma faulty_property_snoc2 (p : list value) (owner i : value) :
  is_int i = true -> faulty_property (p ++ [owner; i]) = owner.
Proof.
  intros Hi. unfold faulty_property, last_item, second_to_last_item.
  rewrite rev_app_distr. simpl. now rewrite Hi.
Qed.

Lemma faulty_property_snoc (p : list value) (x : value) :
  is_int x = false -> faulty_property (p ++ [x]) = VStr (py_str x).
Proof.
  intros Hx. unfold faulty_property, last_item.
  rewrite rev_app_distr. simpl. now rewrite Hx.
Qed.

(** C2, at the path to an element of a nested list: the code returns the
    segment before the last one, which is the index [0], where the last
    segment that is not an index is ["steps"]; the message then names the
    property ['0']. *)
Theorem faulty_property_nested_index :
  faulty_property nested_index_path = VInt 0 /\
  spec_faultyProperty nested_index_path = VStr "steps" /\
  py_str (faulty_property nested_index_path) = "0".
Proof. repeat split. Qed.

(** C3, as the code has it: the display name of a mapping schema is the
    value under [schema_name] whenever the key is there, the empty string
    included; without that key it is the value under [type], and [None]
    when that key is missing too. *)
Theorem schema_name_lookup (d : dict) :
  (forall v, dict_lookup d "schema_name" = Some v ->
             schema_name (VDict d) = Ok v) /\
  (forall t, ~ In "schema_name" (dict_keys d) ->
             dict_lookup d "type" = Some t ->
             schema_name (VDict d) = Ok t) /\
  (~ In "schema_name" (dict_keys d) -> ~ In "type" (dict_keys d) ->
   schema_name (VDict d) = Ok VNone).
Proof.
  rewrite schema_name_dict. unfold dict_get. repeat split.
  - intros v ->. reflexivity.
  - intros t Hn Ht. apply dict_lookup_None in Hn. now rewrite Hn, Ht.
  - intros Hn Ht. apply dict_lookup_None in Hn, Ht. now rewrite Hn, Ht.
Qed.

(** C3, a run: an empty [schema_name] is returned as it is. *)
Lemma schema_name_lookup_witness :
  schema_name (VDict unnamed_object_schema) = Ok (VStr "").
Proof.
  exact (proj1 (schema_name_lookup unnamed_object_schema) (VStr "") eq_refl).
Defined.

(** C3, as the specification states it, fails: with an empty [schema_name]
    and a [type], the code returns the empty string and not the type. *)
Lemma empty_schema_name_not_replaced :
  dict_lookup unnamed_object_schema "schema_name" = Some (VStr "") /\
  dict_lookup unnamed_object_schema "type" = Some (VStr "object") /\
  schema_name (VDict unnamed_object_schema) = Ok (VStr "") /\
  spec_displayName unnamed_object_schema = VStr "object" /\
  schema_name (VDict unnamed_object_schema)
  <> Ok (spec_displayName unnamed_object_schema).
Proof. repeat split. discriminate. Qed.

(** C4: [faulty_property] of the empty path is ["schema"]; of a path that
    ends in an integer it is the segment before it, or ["list"] when the
    integer is the only segment; otherwise it is the last segment as a
    string. *)
Theorem faulty_property_cases :
  faulty_property [] = VStr "schema" /\
  (forall i, is_int i = true -> faulty_property [i] = VStr "list") /\
  (forall p owner i, is_int i = true ->
                     faulty_property (p ++ [owner; i]) = owner) /\
  (forall p x, is_int x = false ->
               faulty_property (p ++ [x]) = VStr (py_str x)) /\
  faulty_property [VStr "flows"; VStr "x"; VStr "steps"; VInt 0; VStr "next"]
  = VStr "next" /\
  faulty_property [VStr "flows"; VStr "x"; VStr "steps"; VInt 2]
  = VStr "steps".
Proof.
  repeat split.
  - intros i Hi. unfold faulty_property. simpl. now rewrite Hi.
  - apply faulty_property_snoc2.
  - apply faulty_property_snoc.
Qed.

(** C4, a run of the integer case on the path of the third step. *)
Lemma faulty_property_cases_witness :
  faulty_property ([VStr "flows"; VStr "x"] ++ [VStr "steps"; VInt 2])
  = VStr "steps".
Proof.
  exact (proj1 (proj2 (proj2 faulty_property_cases))
           [VStr "flows"; VStr "x"] (VStr "steps") (VInt 2) eq_refl).
Defined.




(** C6: a failure of [additionalProperties] or [required] is reported with
    the validator's own message, unchanged, and a failure of any keyword
    other than the five handled ones with the sentence that cites the
    document path. *)
Theorem humanize_passthrough_and_fallback (e : ValidationError) :
  (validator e = "additionalProperties" \/ validator e = "required" ->
   humanize_flow_error e = Ok (message e)) /\
  (~ In (validator e)
        ["oneOf"; "anyOf"; "type"; "additionalProperties"; "required"] ->
   humanize_flow_error e
   = Ok ("The flow at " ++ json_path e ++ " is not valid. "
         ++ "Please double check your flow definition.")).
Proof.
  unfold humanize_flow_error. split.
  - intros [-> | ->]; reflexivity.
  - intros Hout.
    repeat match goal with
    | |- context [String.eqb (validator e) ?k] =>
        destruct (String.eqb_spec (validator e) k) as [E|_];
        [exfalso; apply Hout; rewrite E; simpl; tauto|]
    end.
    reflexivity.
Qed.

(** C6, two runs: a missing required property and a failed [enum]. *)
Lemma humanize_passthrough_and_fallback_witness :
  humanize_flow_error required_failure = Ok "'steps' is a required property" /\
  humanize_flow_error enum_failure
  = Ok ("The flow at $.flows.greet.kind is not valid. "
        ++ "Please double check your flow definition.").
Proof.
  split.
  - exact (proj1 (humanize_passthrough_and_fallback required_failure)
             (or_intror eq_refl)).
  - apply (proj2 (humanize_passthrough_and_fallback enum_failure)).
    simpl. intros [H|[H|[H|[H|[H|[]]]]]]; discriminate H.
Defined.

(** ** The reader *)

Section ReaderProperties.
Context {C : Collaborators}.

(** What a read returns does not depend on the calls recorded before it,
    and its own calls are added after them. *)
Lemma read_from_string_log (text : string) (skip : bool) (log : list call) :
  read_from_string text skip log
  = (outcome (read_from_string text skip),
     (log ++ calls (read_from_string text skip))%list).
Proof.
  unfold outcome, calls, read_from_string, tbind, invoke, lift, tret.
  destruct skip; cbn [negb app fst snd].
  - destruct (read_yaml text) as [y|e]; cbn [fst snd];
      [|now rewrite ?app_nil_r].
    destruct (py_get y KEY_FLOWS (VDict [])) as [data|e]; cbn [fst snd];
      [|reflexivity].
    destruct (FlowsList_from_json data) as [fl|e]; cbn [fst snd];
      now rewrite <- ?app_assoc.
  - destruct (validate_yaml_with_jsonschema text FLOWS_SCHEMA_FILE
                humanize_flow_error) as [[]|e]; cbn [fst snd];
      [|reflexivity].
    destruct (read_yaml text) as [y|e]; cbn [fst snd];
      [|now rewrite <- ?app_assoc].
    destruct (py_get y KEY_FLOWS (VDict [])) as [data|e]; cbn [fst snd];
      [|now rewrite <- ?app_assoc].
    destruct (FlowsList_from_json data) as [fl|e]; cbn [fst snd];
      [|now rewrite <- ?app_assoc].
    destruct (FlowsList_validate fl) as [[]|e]; cbn [fst snd];
      now rewrite <- ?app_assoc.
Qed.

(** C7: with [skip_validation] set, [read_from_string] calls neither
    validation; it parses the text and builds the flows from the value
    under [flows], or from the empty mapping when the parsed mapping has
    no such key.  Without it, the schema validation comes first, then the
    same parsing and building, then the validation of the flows built. *)
Theorem read_from_string_stages (text : string) :
  let parse_and_build :=
    y <- read_yaml text ;;
    data <- py_get y KEY_FLOWS (VDict []) ;;
    FlowsList_from_json data in
  outcome (read_from_string text true) = parse_and_build /\
  calls (read_from_string text true)
  = CallReadYaml text
    :: match y <- read_yaml text ;; py_get y KEY_FLOWS (VDict []) with
       | Ok data => [CallFromJson data]
       | Raise _ => []
       end /\
  (forall d, read_yaml text = Ok (VDict d) ->
     calls (read_from_string text true)
     = [CallReadYaml text;
        CallFromJson match dict_lookup d "flows" with
                     | Some v => v
                     | None => VDict []
                     end]) /\
  outcome (read_from_string text false)
  = (_ <- validate_yaml_with_jsonschema text FLOWS_SCHEMA_FILE
            humanize_flow_error ;;
     flows <- parse_and_build ;;
     _ <- FlowsList_validate flows ;;
     Ok flows) /\
  calls (read_from_string text false)
  = CallValidateSchema text FLOWS_SCHEMA_FILE
    :: match validate_yaml_with_jsonschema text FLOWS_SCHEMA_FILE
               humanize_flow_error with
       | Raise _ => []
       | Ok _ =>
           calls (read_from_string text true)
           ++ match parse_and_build with
              | Ok flows => [CallValidateFlows flows]
              | Raise _ => []
              end
       end%list.
Proof.
  cbv zeta.
  unfold outcome, calls, read_from_string, tbind, invoke, lift, tret.
  cbn [negb app fst snd].
  repeat split.
  - destruct (read_yaml text) as [y|e]; cbn [bind fst]; [|reflexivity].
    destruct (py_get y KEY_FLOWS (VDict [])) as [data|e]; cbn [bind fst];
      [|reflexivity].
    now destruct (FlowsList_from_json data).
  - destruct (read_yaml text) as [y|e]; cbn [bind snd]; [|reflexivity].
    destruct (py_get y KEY_FLOWS (VDict [])) as [data|e]; cbn [snd];
      [|reflexivity].
    now destruct (FlowsList_from_json data).
  - intros d ->. cbn [py_get fst snd]. unfold dict_get, KEY_FLOWS.
    now destruct (FlowsList_from_json _).
  - destruct (validate_yaml_with_jsonschema text FLOWS_SCHEMA_FILE
                humanize_flow_error) as [[]|e]; cbn [bind fst];
      [|reflexivity].
    destruct (read_yaml text) as [y|e]; cbn [bind fst]; [|reflexivity].
    destruct (py_get y KEY_FLOWS (VDict [])) as [data|e]; cbn [bind fst];
      [|reflexivity].
    destruct (FlowsList_from_json data) as [fl|e]; cbn [bind fst];
      [|reflexivity].
    now destruct (FlowsList_validate fl) as [[]|e].
  - destruct (validate_yaml_with_jsonschema text FLOWS_SCHEMA_FILE
                humanize_flow_error) as [[]|e]; cbn [bind snd];
      [|reflexivity].
    destruct (read_yaml text) as [y|e]; cbn [bind snd app]; [|reflexivity].
    destruct (py_get y KEY_FLOWS (VDict [])) as [data|e]; cbn [bind snd app];
      [|reflexivity].
    destruct (FlowsList_from_json data) as [fl|e]; cbn [bind snd app];
      [|reflexivity].
    now destruct (FlowsList_validate fl) as [[]|e].
Qed.

Lemma not_Rasa_not_Yaml (e : exception) :
  is_RasaException e = false -> is_YamlException e = false.
Proof.
  unfold is_RasaException, is_YamlException.
  now destruct (exc_cls e).
Qed.

Lemma read_from_file_outcome (filename : pathlike) (skip : bool) :
  outcome (read_from_file filename skip)
  = match content <- read_file filename DEFAULT_ENCODING ;;
          outcome (read_from_string content skip) with
    | Ok flows => Ok flows
    | Raise e => Raise (on_read_error filename e)
    end.
Proof.
  unfold outcome at 1. unfold read_from_file, try_except, tbind, invoke.
  destruct (read_file filename DEFAULT_ENCODING) as [content|e];
    cbn [bind fst]; [|reflexivity].
  rewrite read_from_string_log.
  now destruct (outcome (read_from_string content skip)).
Qed.

(** C8, as the code has it: when reading the file or reading its content
    raises [e], [read_from_file] raises too: [e] itself with [filename]
    set to the path when [e] is a [YamlException]; a new [YamlException]
    for the path with [e] as its cause when [e] is another
    [RasaException]; and [e] unchanged, with no path attached, when it is
    not a [RasaException]. *)
Theorem read_from_file_failure
    (filename : pathlike) (skip : bool) (e : exception) :
  (read_file filename DEFAULT_ENCODING = Raise e \/
   exists content,
     read_file filename DEFAULT_ENCODING = Ok content /\
     outcome (read_from_string content skip) = Raise e) ->
  exists e',
    outcome (read_from_file filename skip) = Raise e' /\
    (is_YamlException e = true ->
     e' = set_filename e (PathText (str_of_path filename)) /\
     exc_cls e' = exc_cls e /\
     exc_filename e' = Some (PathText (str_of_path filename))) /\
    (is_YamlException e = false -> is_RasaException e = true ->
     exc_cls e' = YamlException /\
     exc_filename e' = Some filename /\
     exc_cause e' = Some e) /\
    (is_RasaException e = false -> e' = e).
Proof.
  intros Hfail. exists (on_read_error filename e). split.
  - rewrite read_from_file_outcome.
    destruct Hfail as [-> | (content & -> & Hread)]; cbn [bind].
    + reflexivity.
    + now rewrite Hread.
  - unfold on_read_error. split; [|split].
    + intros ->. now destruct e.
    + intros -> ->. now destruct e.
    + intros Hr. now rewrite (not_Rasa_not_Yaml e Hr), Hr.
Qed.

End ReaderProperties.

(** C7, a run: a document without the [flows] key, read without
    validation, is parsed and the flows are built from the empty mapping. *)
Lemma read_from_string_stages_witness :
  calls (read_from_string (C := toy) "{}" true)
  = [CallReadYaml "{}"; CallFromJson (VDict [])].
Proof.
  exact (proj1 (proj2 (proj2 (read_from_string_stages (C := toy) "{}")))
           [] eq_refl).
Defined.

(** C8, two runs: a file that is not YAML and a file that does not exist. *)
Lemma read_from_file_failure_witness :
  (exists e',
     outcome (read_from_file (C := toy) (PathObj "broken.yml") false)
     = Raise e' /\
     exc_filename e' = Some (PathText "broken.yml")) /\
  (exists e',
     outcome (read_from_file (C := toy) (PathObj "missing.yml") false)
     = Raise e' /\
     exc_cls e' = YamlException /\
     exc_filename e' = Some (PathObj "missing.yml") /\
     exc_cause e' = Some file_io_error).
Proof.
  split.
  - destruct (read_from_file_failure (C := toy) (PathObj "broken.yml") false
                yaml_syntax_error)
      as (e' & Hout & Hyaml & _).
    + right. exists "{". split; reflexivity.
    + exists e'. split; [exact Hout|]. now destruct (Hyaml eq_refl) as (_ & _ & H).
  - destruct (read_from_file_failure (C := toy) (PathObj "missing.yml") false
                file_io_error)
      as (e' & Hout & _ & Hrasa & _).
    + left. reflexivity.
    + exists e'. split; [exact Hout|]. exact (Hrasa eq_refl eq_refl).
Defined.

(** C8, as the specification states it, fails: a file that holds a YAML
    sequence, read with validation skipped, makes [read_from_file] raise an
    [AttributeError] that is not a [YamlException], carries no file name
    and has no cause. *)
Lemma read_from_file_unclassified_failure :
  outcome (read_from_file (C := toy_list_file) (PathText "list.yml") true)
  = Raise (Exc AttributeError None None "") /\
  is_YamlException (Exc AttributeError None None "") = false /\
  is_RasaException (Exc AttributeError None None "") = false /\
  exc_filename (Exc AttributeError None None "") = None /\
  ~ spec_read_failure_classified (C := toy_list_file).
Proof.
  repeat split.
  intros Hspec.
  destruct (Hspec (PathText "list.yml") true (Exc AttributeError None None "")
              eq_refl) as [Hyaml _].
  discriminate Hyaml.
Qed.

(** ** The writer *)

Lemma dict_set_fresh (d : dict) (k : string) (v : value) :
  ~ In k (dict_keys d) -> dict_set d k v = (d ++ [(k, v)])%list.
Proof.
  induction d as [|[k' v'] d IH]; simpl; intros Hk.
  - reflexivity.
  - destruct (String.eqb_spec k' k) as [E|_]; [tauto|].
    rewrite IH; tauto.
Qed.

Lemma dict_set_keys (d : dict) (k : string) (v : value) :
  In k (dict_keys d) -> dict_keys (dict_set d k v) = dict_keys d.
Proof.
  induction d as [|[k' v'] d IH]; simpl; intros Hk.
  - tauto.
  - destruct (String.eqb_spec k' k) as [E|Hne]; simpl; [reflexivity|].
    rewrite IH; tauto.
Qed.

Lemma dict_set_NoDup (d : dict) (k : string) (v : value) :
  NoDup (dict_keys d) -> NoDup (dict_keys (dict_set d k v)).
Proof.
  intros Hnd. destruct (in_dec string_dec k (dict_keys d)) as [Hin|Hout].
  - now rewrite dict_set_keys.
  - rewrite dict_set_fresh by exact Hout.
    unfold dict_keys. rewrite map_app. simpl.
    apply NoDup_app; [exact Hnd | repeat constructor; simpl; tauto |].
    intros a Ha [<-|[]]. now apply Hout.
Qed.

Lemma dict_lookup_set_same (d : dict) (k : string) (v : value) :
  dict_lookup (dict_set d k v) k = Some v.
Proof.
  induction d as [|[k' v'] d IH]; simpl.
  - now rewrite String.eqb_refl.
  - destruct (String.eqb k' k) eqn:E; simpl; now rewrite E.
Qed.

Lemma dict_lookup_set_other (d : dict) (k k' : string) (v : value) :
  k <> k' -> dict_lookup (dict_set d k v) k' = dict_lookup d k'.
Proof.
  intros Hne. induction d as [|[k0 v0] d IH]; simpl.
  - destruct (String.eqb_spec k k'); [contradiction | reflexivity].
  - destruct (String.eqb_spec k0 k) as [->|Hk0]; simpl.
    + destruct (String.eqb_spec k k'); [contradiction | reflexivity].
    + now rewrite IH.
Qed.

Lemma dict_del_present (d : dict) (k : string) :
  In k (dict_keys d) -> dict_del d k = Ok (dict_remove d k).
Proof.
  intros Hin. unfold dict_del.
  destruct (dict_lookup d k) eqn:E; [reflexivity|].
  now apply dict_lookup_None in E.
Qed.

Section WriterProperties.
Context {C : Collaborators}.

Lemma dumps_loop_app (l1 l2 : list Flow) (acc : dict) :
  dumps_loop (l1 ++ l2) acc
  = (acc' <- dumps_loop l1 acc ;; dumps_loop l2 acc').
Proof.
  revert acc. induction l1 as [|f l1 IH]; intros acc; simpl.
  - reflexivity.
  - destruct (dict_del (as_json f) "id"); simpl; [apply IH | reflexivity].
Qed.

Lemma dumps_loop_step (f : Flow) (rest : list Flow) (acc : dict) :
  In "id" (dict_keys (as_json f)) ->
  dumps_loop (f :: rest) acc
  = dumps_loop rest (dict_set acc (fst (entry_of f)) (snd (entry_of f))).
Proof.
  intros Hid. simpl. now rewrite dict_del_present.
Qed.

Lemma dumps_loop_ok (flows : list Flow) (acc : dict) :
  (forall f, In f flows -> In "id" (dict_keys (as_json f))) ->
  exists dump, dumps_loop flows acc = Ok dump.
Proof.
  revert acc. induction flows as [|f flows IH]; intros acc Hid.
  - now exists acc.
  - rewrite dumps_loop_step by (apply Hid; now left).
    apply IH. intros g Hg. apply Hid. now right.
Qed.

Lemma dumps_loop_NoDup (flows : list Flow) (acc dump : dict) :
  dumps_loop flows acc = Ok dump ->
  NoDup (dict_keys acc) -> NoDup (dict_keys dump).
Proof.
  revert acc. induction flows as [|f flows IH]; intros acc; simpl.
  - now intros [= ->].
  - destruct (dict_del (as_json f) "id") as [body|e]; simpl; [|discriminate].
    intros Hloop Hnd. apply (IH _ Hloop). now apply dict_set_NoDup.
Qed.

Lemma dumps_loop_untouched (flows : list Flow) (acc dump : dict) (k : string) :
  dumps_loop flows acc = Ok dump ->
  ~ In k (map flow_id flows) ->
  dict_lookup dump k = dict_lookup acc k.
Proof.
  revert acc. induction flows as [|f flows IH]; intros acc; simpl.
  - now intros [= ->].
  - destruct (dict_del (as_json f) "id") as [body|e]; simpl; [|discriminate].
    intros Hloop Hk. rewrite (IH _ Hloop) by tauto.
    apply dict_lookup_set_other. tauto.
Qed.

(** C10: when two flows of the list have the same identifier, [dumps]
    raises nothing and the mapping it writes has one entry for that
    identifier, whose body is that of the last flow with it: the body of
    the earlier flow is not written. *)
Theorem dumps_duplicate_id
    (flows before between after : list Flow) (earlier later : Flow) :
  flows = (before ++ earlier :: between ++ later :: after)%list ->
  flow_id earlier = flow_id later ->
  ~ In (flow_id later) (map flow_id after) ->
  (forall f, In f flows -> In "id" (dict_keys (as_json f))) ->
  exists dump,
    dumps flows
    = Ok (dump_obj_as_yaml_to_string (VDict [(KEY_FLOWS, VDict dump)])) /\
    count_occ string_dec (dict_keys dump) (flow_id later) = 1 /\
    (forall v, In (flow_id later, v) dump ->
               v = VDict (dict_remove (as_json later) "id")).
Proof.
  intros Hflows Hsame Hlast Hid.
  destruct (dumps_loop_ok flows [] Hid) as [dump Hdump].
  exists dump.
  assert (Hnd : NoDup (dict_keys dump)).
  { apply (dumps_loop_NoDup flows [] dump Hdump). constructor. }
  assert (Hlook : dict_lookup dump (flow_id later)
                  = Some (VDict (dict_remove (as_json later) "id"))).
  { rewrite Hflows in Hdump.
    replace (before ++ earlier :: between ++ later :: after)%list
      with ((before ++ earlier :: between) ++ later :: after)%list in Hdump
      by (rewrite <- app_assoc; reflexivity).
    rewrite dumps_loop_app in Hdump.
    destruct (dumps_loop (before ++ earlier :: between) []) as [acc|e];
      [|discriminate].
    cbn [bind] in Hdump.
    rewrite dumps_loop_step in Hdump
      by (apply Hid; rewrite Hflows; apply in_or_app; right; right;
          apply in_or_app; right; now left).
    rewrite (dumps_loop_untouched _ _ _ _ Hdump Hlast).
    apply dict_lookup_set_same. }
  split; [|split].
  - unfold dumps. now rewrite Hdump.
  - apply NoDup_count_occ'; [exact Hnd|].
    apply dict_lookup_In in Hlook.
    change (flow_id later) with (fst (flow_id later,
                                      VDict (dict_remove (as_json later) "id"))).
    now apply in_map.
  - intros v Hin. apply (In_dict_lookup _ _ _ Hnd) in Hin. congruence.
Qed.

End WriterProperties.

(** C10, a run: two flows named [greet]; only the second is written. *)
Lemma dumps_duplicate_id_witness :
  exists dump,
    dumps (C := toy) [greet; greet_again]
    = Ok (py_repr (VDict [(KEY_FLOWS, VDict dump)])) /\
    count_occ string_dec (dict_keys dump) "greet" = 1 /\
    (forall v, In ("greet", v) dump ->
               v = VDict [("description", VStr "say hello twice")]).
Proof.
  apply (dumps_duplicate_id (C := toy) [greet; greet_again] [] [] []
           greet greet_again eq_refl eq_refl).
  - simpl. tauto.
  - intros f [<-|[<-|[]]]; simpl; tauto.
Defined.

(** ** Writing, then reading back *)

Lemma koe_dict_inv (d : dict) (v : value) :
  key_order_equiv (VDict d) v ->
  exists p d',
    v = VDict d' /\ Permutation d p /\
    Forall2 (fun a b => fst a = fst b /\ key_order_equiv (snd a) (snd b)) p d'.
Proof.
  intros H. inversion H as [v'|l l' Hl|d0 p d' Hp Hf]; subst.
  - exists d, d. repeat split; [reflexivity|].
    clear H. induction d as [|a d IH]; constructor; [|exact IH].
    split; [reflexivity | constructor].
  - now exists p, d'.
Qed.

Lemma koe_VStr_inv (s : string) (v : value) :
  key_order_equiv (VStr s) v -> v = VStr s.
Proof. intros H. now inversion H. Qed.

Lemma koe_singleton_inv (k : string) (x v : value) :
  key_order_equiv (VDict [(k, x)]) v ->
  exists x', v = VDict [(k, x')] /\ key_order_equiv x x'.
Proof.
  intros H. apply koe_dict_inv in H as (p & d' & -> & Hp & Hf).
  apply Permutation_length_1_inv in Hp. subst p.
  inversion Hf as [|a b l l' [Hk Hx] Hrest]; subst.
  inversion Hrest; subst. destruct b as [k' x']. simpl in Hk, Hx. subst k'.
  now exists x'.
Qed.

Section RoundTrip.
Context {C : Collaborators}.

Lemma read_from_string_outcome (text : string) (skip : bool) :
  outcome (read_from_string text skip)
  = (_ <- (if skip then Ok tt
           else validate_yaml_with_jsonschema text FLOWS_SCHEMA_FILE
                  humanize_flow_error) ;;
     y <- read_yaml text ;;
     data <- py_get y KEY_FLOWS (VDict []) ;;
     flows <- FlowsList_from_json data ;;
     _ <- (if skip then Ok tt else FlowsList_validate flows) ;;
     Ok flows).
Proof.
  unfold outcome, read_from_string, tbind, invoke, lift, tret.
  destruct skip; cbn [negb app fst snd bind].
  - destruct (read_yaml text) as [y|e]; cbn [bind fst]; [|reflexivity].
    destruct (py_get y KEY_FLOWS (VDict [])) as [data|e]; cbn [bind fst];
      [|reflexivity].
    now destruct (FlowsList_from_json data).
  - destruct (validate_yaml_with_jsonschema text FLOWS_SCHEMA_FILE
                humanize_flow_error) as [[]|e]; cbn [bind fst];
      [|reflexivity].
    destruct (read_yaml text) as [y|e]; cbn [bind fst]; [|reflexivity].
    destruct (py_get y KEY_FLOWS (VDict [])) as [data|e]; cbn [bind fst];
      [|reflexivity].
    destruct (FlowsList_from_json data) as [fl|e]; cbn [bind fst];
      [|reflexivity].
    now destruct (FlowsList_validate fl) as [[]|e].
Qed.

Lemma parse_inverts_has_id (f : Flow) :
  parse_inverts_as_json f ->
  In "id" (dict_keys (as_json f)) /\
  forall body', key_order_equiv (snd (entry_of f)) body' ->
                Flow_from_json (flow_id f) body' = Ok f.
Proof.
  intros (body & Hdel & Hparse). unfold dict_del in Hdel.
  destruct (dict_lookup (as_json f) "id") eqn:E; [|discriminate].
  injection Hdel as <-. split; [|exact Hparse].
  destruct (in_dec string_dec "id" (dict_keys (as_json f))) as [H|H];
    [exact H|].
  apply dict_lookup_None in H. congruence.
Qed.

(** With identifiers that are all different and not yet in the mapping,
    the loop of [dumps] appends one entry per flow, in order. *)
Lemma dumps_loop_distinct (flows : list Flow) (acc : dict) :
  NoDup (map flow_id flows) ->
  (forall f, In f flows -> ~ In (flow_id f) (dict_keys acc)) ->
  (forall f, In f flows -> In "id" (dict_keys (as_json f))) ->
  dumps_loop flows acc = Ok (acc ++ map entry_of flows)%list.
Proof.
  revert acc. induction flows as [|f flows IH]; intros acc Hnd Hfresh Hid.
  - simpl. now rewrite app_nil_r.
  - rewrite dumps_loop_step by (apply Hid; now left).
    rewrite dict_set_fresh by (apply Hfresh; now left).
    inversion Hnd as [|? ? Hf Hnd']; subst.
    rewrite IH.
    + simpl. now rewrite <- app_assoc.
    + exact Hnd'.
    + intros g Hg. unfold dict_keys. rewrite map_app, in_app_iff.
      intros [Hin|[Heq|[]]].
      * apply (Hfresh g); [now right | exact Hin].
      * simpl in Heq. apply Hf. rewrite Heq. now apply in_map.
    + intros g Hg. apply Hid. now right.
Qed.

Lemma parse_entries_read_back (flows : list Flow) (items : dict) :
  Forall parse_inverts_as_json flows ->
  Forall2 (fun a b => fst a = fst b /\ key_order_equiv (snd a) (snd b))
          (map entry_of flows) items ->
  parse_entries items = Ok flows.
Proof.
  revert items. induction flows as [|f flows IH]; intros items Hinv Hf.
  - inversion Hf. reflexivity.
  - inversion Hf as [|a [k body'] l l' [Hk Hb] Hrest]; subst.
    inversion Hinv as [|? ? Hhead Htail]; subst.
    simpl in Hk. subst k. cbn [parse_entries].
    rewrite (proj2 (parse_inverts_has_id f Hhead) body' Hb). cbn [bind].
    now rewrite (IH l' Htail Hrest).
Qed.

(** C9: for flows with pairwise different identifiers, [dumps] writes the
    mapping that has, under [flows], one entry per flow, keyed by the
    identifier and holding the body without its [id] field; and when the
    YAML text reads back to that mapping up to key order, and parsing a
    flow inverts [as_json], reading the text gives the same flows again,
    up to their order. *)
Theorem read_dumps_round_trip (d : list Flow) (skip : bool) :
  let written := VDict [(KEY_FLOWS, VDict (map entry_of d))] in
  NoDup (map flow_id d) ->
  Forall parse_inverts_as_json d ->
  builds_from_entries ->
  yaml_reads_back written ->
  (skip = false -> schema_accepts (dump_obj_as_yaml_to_string written)) ->
  (skip = false ->
   forall fl, Permutation (underlying_flows fl) d ->
              FlowsList_validate fl = Ok tt) ->
  exists fl,
    dumps d = Ok (dump_obj_as_yaml_to_string written) /\
    (text <- dumps d ;; outcome (read_from_string text skip)) = Ok fl /\
    Permutation (underlying_flows fl) d.
Proof.
  intros written Hnd Hinv Hbuild (o' & Hread & Hequiv) Hschema Hvalid.
  assert (Hdumps : dumps d = Ok (dump_obj_as_yaml_to_string written)).
  { unfold dumps. rewrite dumps_loop_distinct; [reflexivity | exact Hnd | |].
    - intros f _ [].
    - intros f Hf. rewrite Forall_forall in Hinv.
      apply (parse_inverts_has_id f (Hinv f Hf)). }
  apply koe_singleton_inv in Hequiv as (v & -> & Hv).
  apply koe_dict_inv in Hv as (p & items & -> & Hp & Hf).
  apply Permutation_sym, Permutation_map_inv in Hp as (d' & -> & Hd').
  assert (Hinv' : Forall parse_inverts_as_json d').
  { now rewrite <- Hd'. }
  pose proof (parse_entries_read_back d' items Hinv' Hf) as Hparse.
  rewrite <- Hbuild in Hparse.
  destruct (FlowsList_from_json (VDict items)) as [fl|e] eqn:Hfl;
    [|discriminate].
  cbn [bind] in Hparse. injection Hparse as Hunder.
  exists fl. split; [exact Hdumps|]. split.
  - rewrite Hdumps. cbn [bind]. rewrite read_from_string_outcome, Hread.
    cbn [bind py_get dict_get dict_lookup KEY_FLOWS String.eqb Ascii.eqb
           Bool.eqb].
    rewrite Hfl. cbn [bind].
    destruct skip; cbn [bind]; [reflexivity|].
    rewrite (Hschema eq_refl). cbn [bind].
    rewrite (Hvalid eq_refl fl); [reflexivity|].
    rewrite Hunder. now symmetry.
  - rewrite Hunder. now symmetry.
Qed.

End RoundTrip.

Lemma toy_builds_from_entries : builds_from_entries (C := toy).
Proof.
  intros items. cbn [FlowsList_from_json toy toy_flows_from_json underlying_flows].
  induction items as [|[k body] items IH]; [reflexivity|].
  cbn [toy_parse_entries parse_entries Flow_from_json toy].
  destruct (toy_from_json k body) as [f|e]; cbn [bind]; [|reflexivity].
  rewrite <- IH. now destruct (toy_parse_entries items).
Qed.

Lemma greet_parse_inverts : parse_inverts_as_json (C := toy) greet.
Proof.
  exists greet_body. split; [reflexivity|].
  intros body' H. apply koe_singleton_inv in H as (x' & -> & Hx).
  apply koe_VStr_inv in Hx. now subst x'.
Qed.

(** C9, a run: the flow [greet] written and read back, with validation. *)
Lemma read_dumps_round_trip_witness :
  exists fl,
    dumps (C := toy) [greet] = Ok greet_text /\
    (text <- dumps (C := toy) [greet] ;;
     outcome (read_from_string (C := toy) text false)) = Ok fl /\
    Permutation fl [greet].
Proof.
  apply (read_dumps_round_trip (C := toy) [greet] false).
  - repeat constructor. simpl. tauto.
  - constructor; [exact greet_parse_inverts | constructor].
  - exact toy_builds_from_entries.
  - exists greet_document. split; [reflexivity | constructor].
  - intros _. reflexivity.
  - intros _ fl _. reflexivity.
Defined.

(* ================================================================== *)
(** * Further properties of the humanizer *)

Lemma leb_iff (a b : string) :
  String.leb a b = true <-> OrderedTypeEx.String_as_OT.lt a b \/ a = b.
Proof.
  unfold String.leb.
  destruct (String.compare a b) eqn:E.
  - apply String.compare_eq_iff in E. tauto.
  - apply OrderedTypeEx.String_as_OT.cmp_lt in E. tauto.
  - split; [discriminate|]. intros [H| ->].
    + apply OrderedTypeEx.String_as_OT.cmp_lt in H.
      unfold OrderedTypeEx.String_as_OT.cmp in H. congruence.
    + assert (String.compare b b = Eq) as Hb
        by (apply OrderedTypeEx.String_as_OT.cmp_eq; reflexivity).
      congruence.
Qed.

Lemma leb_trans (a b c : string) :
  String.leb a b = true -> String.leb b c = true -> String.leb a c = true.
Proof.
  rewrite !leb_iff. intros [H1| ->] [H2| ->]; auto.
  left. eapply OrderedTypeEx.String_as_OT.lt_trans; eassumption.
Qed.

Lemma leb_false_flip (a b : string) :
  String.leb a b = false -> String.leb b a = true.
Proof.
  intros H. destruct (String.leb_total a b) as [E|E]; congruence.
Qed.

Lemma insert_sorted_pair (x y : string) (l : list string) :
  insert_sorted x (y :: l)
  = if String.leb x y then x :: y :: l else y :: insert_sorted x l.
Proof. reflexivity. Qed.

Lemma insert_sorted_comm (x y : string) (l : list string) :
  insert_sorted x (insert_sorted y l) = insert_sorted y (insert_sorted x l).
Proof.
  assert (Hpair : forall rest,
             (if String.leb x y then x :: y :: rest else y :: x :: rest)
             = (if String.leb y x then y :: x :: rest else x :: y :: rest)).
  { intros rest. destruct (String.leb x y) eqn:Exy, (String.leb y x) eqn:Eyx;
      try reflexivity.
    - now rewrite (String.leb_antisym _ _ Exy Eyx).
    - apply leb_false_flip in Exy. congruence. }
  induction l as [|z l IH].
  - simpl. rewrite Hpair. 
    destruct (String.leb x y), (String.leb y x); reflexivity.
  - cbn [insert_sorted].
    destruct (String.leb y z) eqn:Eyz, (String.leb x z) eqn:Exz;
      rewrite !insert_sorted_pair.
    + rewrite Eyz, Exz.
      destruct (String.leb x y) eqn:Exy, (String.leb y x) eqn:Eyx;
        try reflexivity.
      * now rewrite (String.leb_antisym _ _ Exy Eyx).
      * apply leb_false_flip in Exy. congruence.
    + rewrite Eyz.
      destruct (String.leb x y) eqn:Exy.
      * rewrite (leb_trans _ _ _ Exy Eyz) in Exz. discriminate.
      * now rewrite Exz.
    + rewrite Exz.
      destruct (String.leb y x) eqn:Eyx.
      * rewrite (leb_trans _ _ _ Eyx Exz) in Eyz. discriminate.
      * now rewrite Eyz.
    + rewrite Eyz, Exz. now rewrite IH.
Qed.

(** Lists with the same elements sort to the same list. *)
Lemma sorted_perm_eq (l l' : list string) :
  Permutation l l' -> sorted l = sorted l'.
Proof.
  induction 1 as [|x l l' _ IH|x y l|l l' l'' _ IH1 _ IH2]; simpl.
  - reflexivity.
  - now rewrite IH.
  - apply insert_sorted_comm.
  - congruence.
Qed.

Lemma schema_names_loop_mappings (ds : list dict) (acc : list value) :
  schema_names_loop (map VDict ds) acc
  = Ok (acc ++ filter truthy (map shown_name ds))%list.
Proof.
  revert acc. induction ds as [|d ds IH]; intros acc.
  - simpl. now rewrite app_nil_r.
  - cbn [map schema_names_loop]. rewrite schema_name_dict. cbn [bind filter].
    fold (shown_name d).
    destruct (truthy (shown_name d)).
    + rewrite IH. now rewrite <- app_assoc.
    + apply IH.
Qed.

(** X1: over alternatives that are mappings, [schema_names] returns, in the
    order of the alternatives, the value under [schema_name], or under
    [type] when that key is missing, of each alternative for which this
    value is truthy; an alternative whose name is empty or missing is
    left out. *)
Theorem schema_names_mappings (ds : list dict) :
  schema_names (VList (map VDict ds))
  = Ok (filter truthy (map shown_name ds)).
Proof.
  unfold schema_names. cbn [py_iter bind].
  now rewrite schema_names_loop_mappings.
Qed.

Lemma schema_names_filter (ds : list dict) :
  schema_names (VList (map VDict ds))
  = Ok (filter truthy (map shown_name ds)).
Proof.
  unfold schema_names. cbn [py_iter bind].
  now rewrite schema_names_loop_mappings.
Qed.

Lemma schema_names_loop_not_mapping (alts : list value) (acc : list value) :
  (exists a, In a alts /\ is_dict a = false) ->
  schema_names_loop alts acc = builtin_error AttributeError.
Proof.
  revert acc. induction alts as [|a alts IH]; intros acc (b & Hin & Hb).
  - destruct Hin.
  - destruct (is_dict a) eqn:Ha.
    + destruct a; try discriminate Ha.
      cbn [schema_names_loop]. rewrite schema_name_dict. cbn [bind].
      assert (Hrest : exists a, In a alts /\ is_dict a = false).
      { destruct Hin as [<-|Hin]; [discriminate Hb|]. now exists b. }
      destruct (truthy _); now apply IH.
    + destruct a; try discriminate Ha; reflexivity.
Qed.

(** X2: when one of the alternatives under the failing one-of or any-of
    keyword is not a mapping (the boolean schema [true], say), reading its
    name raises [AttributeError], and so does the humanizer: no message is
    produced. *)
Theorem expected_schema_not_mapping
    (e : ValidationError) (kw : string) (alts : list value) :
  kw = "oneOf" \/ kw = "anyOf" ->
  validator e = kw ->
  dict_get (schema e) kw (VList []) = VList alts ->
  (exists a, In a alts /\ is_dict a = false) ->
  expected_schema e kw = builtin_error AttributeError /\
  humanize_flow_error e = builtin_error AttributeError.
Proof.
  intros Hkw Hv Hget Hbad.
  assert (Hexp : expected_schema e kw = builtin_error AttributeError).
  { unfold expected_schema, schema_names. rewrite Hget. cbn [py_iter bind].
    now rewrite schema_names_loop_not_mapping. }
  split; [exact Hexp|].
  unfold humanize_flow_error. rewrite Hv.
  destruct Hkw as [-> | ->]; cbn [String.eqb Ascii.eqb Bool.eqb].
  - unfold format_oneof_error. now rewrite Hexp.
  - unfold format_anyof_error. now rewrite Hexp.
Qed.

(** X2, a run: a boolean schema among the alternatives. *)
Lemma expected_schema_not_mapping_witness :
  humanize_flow_error boolean_failure = builtin_error AttributeError.
Proof.
  apply (expected_schema_not_mapping boolean_failure "anyOf"
           boolean_alternatives (or_intror eq_refl) eq_refl eq_refl).
  exists (VBool true). split; [simpl; tauto | reflexivity].
Defined.

Lemma all_strings_not_str (l : list value) :
  (exists x, In x l /\ is_str x = false) -> all_strings l = None.
Proof.
  induction l as [|a l IH]; intros (x & Hin & Hx).
  - destruct Hin.
  - destruct a; try reflexivity. simpl.
    destruct Hin as [<-|Hin]; [discriminate Hx|].
    rewrite IH; [reflexivity | now exists x].
Qed.

(** X3: when the name shown for an alternative is truthy but not a string
    (a [type] given as a list of type names, with no [schema_name]),
    joining the names raises [TypeError], and so does the humanizer. *)
Theorem expected_schema_name_not_string
    (e : ValidationError) (kw : string) (ds : list dict) :
  kw = "oneOf" \/ kw = "anyOf" ->
  validator e = kw ->
  dict_get (schema e) kw (VList []) = VList (map VDict ds) ->
  (exists d, In d ds /\ truthy (shown_name d) = true /\
             is_str (shown_name d) = false) ->
  expected_schema e kw = builtin_error TypeError /\
  humanize_flow_error e = builtin_error TypeError.
Proof.
  intros Hkw Hv Hget (d & Hin & Ht & Hs).
  assert (Hexp : expected_schema e kw = builtin_error TypeError).
  { unfold expected_schema. rewrite Hget, schema_names_filter. cbn [bind].
    assert (Hname : In (shown_name d) (filter truthy (map shown_name ds))).
    { apply filter_In. split; [now apply in_map | exact Ht]. }
    destruct (filter truthy (map shown_name ds)) as [|n ns] eqn:E;
      [destruct Hname|].
    unfold join_sorted. rewrite all_strings_not_str; [reflexivity|].
    now exists (shown_name d). }
  split; [exact Hexp|].
  unfold humanize_flow_error. rewrite Hv.
  destruct Hkw as [-> | ->]; cbn [String.eqb Ascii.eqb Bool.eqb].
  - unfold format_oneof_error. now rewrite Hexp.
  - unfold format_anyof_error. now rewrite Hexp.
Qed.

(** X3, a run: an alternative typed [["string", "null"]]. *)
Lemma expected_schema_name_not_string_witness :
  humanize_flow_error union_failure = builtin_error TypeError.
Proof.
  apply (expected_schema_name_not_string union_failure "oneOf"
           union_alternatives (or_introl eq_refl) eq_refl eq_refl).
  exists [("type", VList [VStr "string"; VStr "null"])].
  repeat split. simpl. tauto.
Defined.

Lemma all_strings_perm (l l' : list value) :
  Permutation l l' ->
  match all_strings l, all_strings l' with
  | Some ss, Some ss' => Permutation ss ss'
  | None, None => True
  | _, _ => False
  end.
Proof.
  induction 1 as [|x l l' _ IH|x y l|l l' l'' _ IH1 _ IH2].
  - constructor.
  - destruct x; simpl; try exact I.
    destruct (all_strings l), (all_strings l'); try exact IH.
    now constructor.
  - destruct x, y; simpl; try exact I;
      destruct (all_strings l); try exact I; try apply perm_swap.
  - destruct (all_strings l), (all_strings l'), (all_strings l'');
      try contradiction; try exact I.
    eapply perm_trans; eassumption.
Qed.

Lemma filter_perm {A} (f : A -> bool) (l l' : list A) :
  Permutation l l' -> Permutation (filter f l) (filter f l').
Proof.
  induction 1 as [|x l l' _ IH|x y l|l l' l'' _ IH1 _ IH2]; simpl.
  - constructor.
  - destruct (f x); [now constructor | exact IH].
  - destruct (f x), (f y); try reflexivity. apply perm_swap.
  - eapply perm_trans; eassumption.
Qed.

Lemma join_sorted_perm (sep : string) (l l' : list value) :
  Permutation l l' -> join_sorted sep l = join_sorted sep l'.
Proof.
  intros Hp. apply all_strings_perm in Hp. unfold join_sorted.
  destruct (all_strings l), (all_strings l'); try contradiction;
    [|reflexivity].
  now rewrite (sorted_perm_eq _ _ Hp).
Qed.

(** X4: the order in which the schema lists its alternatives does not show
    in the message: two one-of (or any-of) failures at the same path whose
    mapping alternatives are the same up to order, at least one of them
    with a truthy name, are humanized to the same text. *)
Theorem expected_schema_order_independent
    (e e' : ValidationError) (kw : string) (ds ds' : list dict) :
  kw = "oneOf" \/ kw = "anyOf" ->
  validator e = kw -> validator e' = kw ->
  absolute_path e = absolute_path e' ->
  dict_get (schema e) kw (VList []) = VList (map VDict ds) ->
  dict_get (schema e') kw (VList []) = VList (map VDict ds') ->
  Permutation ds ds' ->
  (exists d, In d ds /\ truthy (shown_name d) = true) ->
  expected_schema e kw = expected_schema e' kw /\
  humanize_flow_error e = humanize_flow_error e'.
Proof.
  intros Hkw Hv Hv' Hpath Hget Hget' Hperm (d & Hin & Ht).
  assert (Hexp : expected_schema e kw = expected_schema e' kw).
  { unfold expected_schema.
    rewrite Hget, Hget', !schema_names_filter. cbn [bind].
    assert (Hnames : Permutation (filter truthy (map shown_name ds))
                                 (filter truthy (map shown_name ds'))).
    { apply filter_perm. now apply Permutation_map. }
    assert (Hname : In (shown_name d) (filter truthy (map shown_name ds))).
    { apply filter_In. split; [now apply in_map | exact Ht]. }
    destruct (filter truthy (map shown_name ds)) as [|n ns] eqn:E;
      [destruct Hname|].
    destruct (filter truthy (map shown_name ds')) as [|n' ns'] eqn:E'.
    - apply Permutation_sym, Permutation_nil in Hnames. discriminate.
    - now apply join_sorted_perm. }
  split; [exact Hexp|].
  unfold humanize_flow_error. rewrite Hv, Hv'.
  destruct Hkw as [-> | ->]; cbn [String.eqb Ascii.eqb Bool.eqb].
  - unfold format_oneof_error. now rewrite Hexp, Hpath.
  - unfold format_anyof_error. now rewrite Hexp, Hpath.
Qed.

(** X4, a run: the step alternatives and the same alternatives reversed. *)
Lemma expected_schema_order_independent_witness :
  humanize_flow_error oneof_failure
  = humanize_flow_error oneof_failure_reordered.
Proof.
  apply (expected_schema_order_independent
           oneof_failure oneof_failure_reordered "oneOf"
           [ [("required", VList [VStr "collect"]);
              ("schema_name", VStr "collect step")];
             [("required", VList [VStr "action"]);
              ("schema_name", VStr "action step")];
             [("required", VList [VStr "noop"]); ("schema_name", VStr "")] ]
           (rev [ [("required", VList [VStr "collect"]);
                   ("schema_name", VStr "collect step")];
                  [("required", VList [VStr "action"]);
                   ("schema_name", VStr "action step")];
                  [("required", VList [VStr "noop"]);
                   ("schema_name", VStr "")] ])
           (or_introl eq_refl) eq_refl eq_refl eq_refl eq_refl eq_refl).
  - apply Permutation_rev.
  - eexists. split; [left; reflexivity | reflexivity].
Defined.

(** X5: the humanizer raises for one-of and any-of failures only: for
    every other keyword it returns a message, whatever the schema and the
    offending value are. *)
Theorem humanize_returns_outside_alternatives (e : ValidationError) :
  validator e <> "oneOf" -> validator e <> "anyOf" ->
  exists m, humanize_flow_error e = Ok m.
Proof.
  intros H1 H2. unfold humanize_flow_error.
  destruct (String.eqb_spec (validator e) "oneOf"); [contradiction|].
  destruct (String.eqb_spec (validator e) "anyOf"); [contradiction|].
  destruct (String.eqb (validator e) "type").
  - unfold format_type_error. rewrite schema_name_dict. cbn [bind].
    eexists. reflexivity.
  - destruct (String.eqb (validator e) "additionalProperties");
      [eexists; reflexivity|].
    destruct (String.eqb (validator e) "required"); eexists; reflexivity.
Qed.

(** X5, a run on a type failure. *)
Lemma humanize_returns_outside_alternatives_witness :
  exists m, humanize_flow_error type_failure = Ok m.
Proof.
  apply (humanize_returns_outside_alternatives type_failure); discriminate.
Defined.

Lemma no_adjacent_indices_app (p : list value) (y x : value) :
  no_adjacent_indices (p ++ [y; x]) = true -> is_int y && is_int x = false.
Proof.
  induction p as [|a p IH].
  - simpl. rewrite andb_true_r. now destruct (is_int y && is_int x).
  - intros H. apply IH.
    change ((a :: p) ++ [y; x])%list with (a :: (p ++ [y; x]))%list in H.
    destruct (p ++ [y; x])%list as [|b rest] eqn:E.
    + now destruct p.
    + cbn [no_adjacent_indices] in H. now apply andb_true_iff in H.
Qed.

(** X6: on a path of property names and list indices in which no index
    follows another index, [faulty_property] returns a string: a property
    name of the path, or ["schema"] for the empty path, or ["list"] for a
    path that is a single index. *)
Theorem faulty_property_is_name (path : list value) :
  forallb is_segment path = true ->
  no_adjacent_indices path = true ->
  exists s,
    faulty_property path = VStr s /\
    (In (VStr s) path \/
     (path = [] /\ s = "schema") \/
     (s = "list" /\ exists i, path = [VInt i])).
Proof.
  intros Hseg Hadj.
  destruct path as [|a path'].
  { exists "schema". split; [reflexivity | tauto]. }
  destruct (@exists_last _ (a :: path')) as (p & x & Hpx); [discriminate|].
  rewrite Hpx in *. clear Hpx a path'.
  rewrite forallb_app in Hseg. apply andb_true_iff in Hseg as [Hp Hx].
  simpl in Hx. rewrite andb_true_r in Hx.
  destruct x as [| |z| |s| |]; try discriminate Hx.
  - destruct p as [|b p'].
    + exists "list". split; [reflexivity|]. right. right.
      split; [reflexivity | now exists z].
    + destruct (@exists_last _ (b :: p')) as (q & y & Hq); [discriminate|].
      rewrite Hq in *. clear Hq b p'.
      rewrite <- app_assoc in Hadj |- *. cbn [app] in Hadj |- *.
      apply no_adjacent_indices_app in Hadj. cbn [is_int] in Hadj.
      rewrite andb_true_r in Hadj.
      rewrite forallb_app in Hp. apply andb_true_iff in Hp as [_ Hy].
      simpl in Hy. rewrite andb_true_r in Hy.
      destruct y as [| |?| |s| |]; try discriminate.
      exists s. split; [now apply faulty_property_snoc2|].
      left. apply in_or_app. right. now left.
  - exists s. split; [now apply faulty_property_snoc|].
    left. apply in_or_app. right. now left.
Qed.

(** X6, a run on the path of the first step of a flow. *)
Lemma faulty_property_is_name_witness :
  exists s,
    faulty_property [VStr "flows"; VStr "x"; VStr "steps"; VInt 0] = VStr s /\
    (In (VStr s) [VStr "flows"; VStr "x"; VStr "steps"; VInt 0] \/
     ([VStr "flows"; VStr "x"; VStr "steps"; VInt 0] = [] /\ s = "schema") \/
     (s = "list" /\
      exists i, [VStr "flows"; VStr "x"; VStr "steps"; VInt 0] = [VInt i])).
Proof.
  exact (faulty_property_is_name
           [VStr "flows"; VStr "x"; VStr "steps"; VInt 0] eq_refl eq_refl).
Defined.

(* ================================================================== *)
(** * Further properties of the reader *)

Section ReaderEdges.
Context {C : Collaborators}.

(** The calls of a read, stage by stage. *)
Lemma read_from_string_calls (text : string) (skip : bool) :
  calls (read_from_string text skip)
  = match (if skip then Ok tt
           else validate_yaml_with_jsonschema text FLOWS_SCHEMA_FILE
                  humanize_flow_error) with
    | Raise _ => [CallValidateSchema text FLOWS_SCHEMA_FILE]
    | Ok _ =>
        (if skip then [] else [CallValidateSchema text FLOWS_SCHEMA_FILE])
        ++ CallReadYaml text
           :: match read_yaml text with
              | Raise _ => []
              | Ok y =>
                  match py_get y KEY_FLOWS (VDict []) with
                  | Raise _ => []
                  | Ok data =>
                      CallFromJson data
                      :: match FlowsList_from_json data with
                         | Raise _ => []
                         | Ok fl =>
                             if skip then [] else [CallValidateFlows fl]
                         end
                  end
              end
    end%list.
Proof.
  unfold calls, read_from_string, tbind, invoke, lift, tret.
  destruct skip; cbn [negb app fst snd].
  - destruct (read_yaml text) as [y|e]; cbn [snd]; [|reflexivity].
    destruct (py_get y KEY_FLOWS (VDict [])) as [data|e]; cbn [snd];
      [|reflexivity].
    now destruct (FlowsList_from_json data).
  - destruct (validate_yaml_with_jsonschema text FLOWS_SCHEMA_FILE
                humanize_flow_error) as [[]|e]; cbn [snd app];
      [|reflexivity].
    destruct (read_yaml text) as [y|e]; cbn [snd app]; [|reflexivity].
    destruct (py_get y KEY_FLOWS (VDict [])) as [data|e]; cbn [snd app];
      [|reflexivity].
    destruct (FlowsList_from_json data) as [fl|e]; cbn [snd app];
      [|reflexivity].
    now destruct (FlowsList_validate fl) as [[]|e].
Qed.

(** X7: when the schema validation raises, [read_from_string] raises the
    same exception and stops there: the text is not parsed and no flow is
    built. *)
Theorem read_from_string_schema_rejected (text : string) (e : exception) :
  validate_yaml_with_jsonschema text FLOWS_SCHEMA_FILE humanize_flow_error
  = Raise e ->
  outcome (read_from_string text false) = Raise e /\
  calls (read_from_string text false)
  = [CallValidateSchema text FLOWS_SCHEMA_FILE].
Proof.
  intros H. rewrite read_from_string_outcome, read_from_string_calls, H.
  split; reflexivity.
Qed.

(** X8: when the YAML parser raises, [read_from_string] raises the same
    exception, and neither builds flows nor validates them. *)
Theorem read_from_string_parse_failure
    (text : string) (skip : bool) (e : exception) :
  (skip = false ->
   validate_yaml_with_jsonschema text FLOWS_SCHEMA_FILE humanize_flow_error
   = Ok tt) ->
  read_yaml text = Raise e ->
  outcome (read_from_string text skip) = Raise e /\
  calls (read_from_string text skip)
  = ((if skip then [] else [CallValidateSchema text FLOWS_SCHEMA_FILE])
     ++ [CallReadYaml text])%list.
Proof.
  intros Hs Hy. rewrite read_from_string_outcome, read_from_string_calls, Hy.
  destruct skip; [split; reflexivity|].
  rewrite (Hs eq_refl). split; reflexivity.
Qed.

(** X9: when the parsed document is not a mapping (a sequence, a scalar,
    [None]), looking up [flows] raises [AttributeError]: no flow is built,
    and the error is not a [RasaException]. *)
Theorem read_from_string_not_mapping
    (text : string) (skip : bool) (y : value) :
  (skip = false ->
   validate_yaml_with_jsonschema text FLOWS_SCHEMA_FILE humanize_flow_error
   = Ok tt) ->
  read_yaml text = Ok y ->
  is_dict y = false ->
  outcome (read_from_string text skip) = builtin_error AttributeError /\
  calls (read_from_string text skip)
  = ((if skip then [] else [CallValidateSchema text FLOWS_SCHEMA_FILE])
     ++ [CallReadYaml text])%list.
Proof.
  intros Hs Hy Hd.
  rewrite read_from_string_outcome, read_from_string_calls, Hy.
  assert (Hget : py_get y KEY_FLOWS (VDict []) = builtin_error AttributeError)
    by (destruct y; try reflexivity; discriminate Hd).
  destruct skip.
  - cbn [bind]. rewrite Hget. split; reflexivity.
  - rewrite (Hs eq_refl). cbn [bind]. rewrite Hget. split; reflexivity.
Qed.

Lemma read_from_string_ok_inv (text : string) (fl : FlowsList) :
  outcome (read_from_string text false) = Ok fl ->
  validate_yaml_with_jsonschema text FLOWS_SCHEMA_FILE humanize_flow_error
  = Ok tt /\
  FlowsList_validate fl = Ok tt.
Proof.
  rewrite read_from_string_outcome. cbn [bind].
  destruct (validate_yaml_with_jsonschema text FLOWS_SCHEMA_FILE
              humanize_flow_error) as [[]|e]; cbn [bind]; [|discriminate].
  destruct (read_yaml text) as [y|e]; cbn [bind]; [|discriminate].
  destruct (py_get y KEY_FLOWS (VDict [])) as [data|e]; cbn [bind];
    [|discriminate].
  destruct (FlowsList_from_json data) as [fl'|e]; cbn [bind]; [|discriminate].
  destruct (FlowsList_validate fl') as [[]|e] eqn:Hv; cbn [bind];
    [|discriminate].
  intros [= <-]. now split.
Qed.

(** X10: flows returned by a validating read have passed both validations,
    and the read that skips validation returns the same flows. *)
Theorem read_from_string_validated (text : string) (fl : FlowsList) :
  outcome (read_from_string text false) = Ok fl ->
  validate_yaml_with_jsonschema text FLOWS_SCHEMA_FILE humanize_flow_error
  = Ok tt /\
  FlowsList_validate fl = Ok tt /\
  outcome (read_from_string text true) = Ok fl.
Proof.
  rewrite !read_from_string_outcome. cbn [bind].
  destruct (validate_yaml_with_jsonschema text FLOWS_SCHEMA_FILE
              humanize_flow_error) as [[]|e]; cbn [bind]; [|discriminate].
  destruct (read_yaml text) as [y|e]; cbn [bind]; [|discriminate].
  destruct (py_get y KEY_FLOWS (VDict [])) as [data|e]; cbn [bind];
    [|discriminate].
  destruct (FlowsList_from_json data) as [fl'|e]; cbn [bind]; [|discriminate].
  destruct (FlowsList_validate fl') as [[]|e] eqn:Hv; cbn [bind];
    [|discriminate].
  intros [= <-]. repeat split. exact Hv.
Qed.

(** X11: when the flows are built but their validation raises, the
    validating read raises that exception as it is, although the read that
    skips validation returns the flows. *)
Theorem read_from_string_semantic_failure
    (text : string) (fl : FlowsList) (e : exception) :
  validate_yaml_with_jsonschema text FLOWS_SCHEMA_FILE humanize_flow_error
  = Ok tt ->
  outcome (read_from_string text true) = Ok fl ->
  FlowsList_validate fl = Raise e ->
  outcome (read_from_string text false) = Raise e /\
  In (CallValidateFlows fl) (calls (read_from_string text false)).
Proof.
  rewrite !read_from_string_outcome, read_from_string_calls. cbn [bind].
  intros ->. cbn [bind].
  destruct (read_yaml text) as [y|e']; cbn [bind]; [|discriminate].
  destruct (py_get y KEY_FLOWS (VDict [])) as [data|e']; cbn [bind];
    [|discriminate].
  destruct (FlowsList_from_json data) as [fl'|e']; cbn [bind]; [|discriminate].
  intros [= ->] ->. split; [reflexivity|].
  simpl. tauto.
Qed.

Lemma read_from_file_calls (filename : pathlike) (skip : bool) :
  calls (read_from_file filename skip)
  = CallReadFile filename DEFAULT_ENCODING
    :: match read_file filename DEFAULT_ENCODING with
       | Ok content => calls (read_from_string content skip)
       | Raise _ => []
       end.
Proof.
  unfold calls at 1. unfold read_from_file, try_except, tbind, invoke.
  destruct (read_file filename DEFAULT_ENCODING) as [content|e];
    cbn [app fst snd]; [|reflexivity].
  rewrite read_from_string_log.
  now destruct (outcome (read_from_string content skip)).
Qed.

(** X12: when the file is read and its content is read without an
    exception, [read_from_file] returns the flows of the content, and its
    calls are the reading of the file in the default encoding followed by
    the calls of [read_from_string] on the content. *)
Theorem read_from_file_success
    (filename : pathlike) (skip : bool) (content : string) (fl : FlowsList) :
  read_file filename DEFAULT_ENCODING = Ok content ->
  outcome (read_from_string content skip) = Ok fl ->
  outcome (read_from_file filename skip) = Ok fl /\
  calls (read_from_file filename skip)
  = CallReadFile filename DEFAULT_ENCODING
    :: calls (read_from_string content skip).
Proof.
  intros Hf Hs. rewrite read_from_file_outcome, read_from_file_calls, Hf.
  cbn [bind]. now rewrite Hs.
Qed.

(** X13: when the file cannot be read, its content is never validated nor
    parsed: reading the file is the only call [read_from_file] makes. *)
Theorem read_from_file_unreadable
    (filename : pathlike) (skip : bool) (e : exception) :
  read_file filename DEFAULT_ENCODING = Raise e ->
  calls (read_from_file filename skip)
  = [CallReadFile filename DEFAULT_ENCODING] /\
  exists e', outcome (read_from_file filename skip) = Raise e'.
Proof.
  intros Hf. rewrite read_from_file_outcome, read_from_file_calls, Hf.
  split; [reflexivity|]. eexists. reflexivity.
Qed.

(** X14: every [RasaException] raised while reading comes out of
    [read_from_file] as a [YamlException] whose [filename] renders to the
    path that was given, a filename it carried before being replaced; the
    original exception is either that exception or its cause. *)
Theorem read_from_file_domain_failure
    (filename : pathlike) (skip : bool) (e : exception) :
  (read_file filename DEFAULT_ENCODING = Raise e \/
   exists content,
     read_file filename DEFAULT_ENCODING = Ok content /\
     outcome (read_from_string content skip) = Raise e) ->
  is_RasaException e = true ->
  exists e',
    outcome (read_from_file filename skip) = Raise e' /\
    is_YamlException e' = true /\
    option_map str_of_path (exc_filename e') = Some (str_of_path filename) /\
    (e' = set_filename e (PathText (str_of_path filename)) \/
     exc_cause e' = Some e).
Proof.
  intros Hfail Hr. exists (on_read_error filename e). split.
  - rewrite read_from_file_outcome.
    destruct Hfail as [-> | (content & -> & Hread)]; cbn [bind].
    + reflexivity.
    + now rewrite Hread.
  - unfold on_read_error. destruct (is_YamlException e) eqn:Hy.
    + destruct e as [c f k m]. unfold is_YamlException in *. simpl in *.
      repeat split; [exact Hy | now left].
    + rewrite Hr. repeat split. now right.
Qed.

(** X15: a file whose YAML content is not a mapping, read with validation
    skipped, makes [read_from_file] raise a bare [AttributeError]: it is
    not a [RasaException], so it is neither wrapped nor given the path. *)
Theorem read_from_file_not_mapping
    (filename : pathlike) (content : string) (y : value) :
  read_file filename DEFAULT_ENCODING = Ok content ->
  read_yaml content = Ok y ->
  is_dict y = false ->
  outcome (read_from_file filename true) = builtin_error AttributeError.
Proof.
  intros Hf Hy Hd. rewrite read_from_file_outcome, Hf. cbn [bind].
  rewrite read_from_string_outcome, Hy. cbn [bind].
  assert (Hget : py_get y KEY_FLOWS (VDict []) = builtin_error AttributeError)
    by (destruct y; try reflexivity; discriminate Hd).
  now rewrite Hget.
Qed.

End ReaderEdges.

(** X7, a run: a schema check that rejects the text. *)
Lemma read_from_string_schema_rejected_witness :
  outcome (read_from_string (C := toy_rejecting) greet_text false)
  = Raise schema_error /\
  calls (read_from_string (C := toy_rejecting) greet_text false)
  = [CallValidateSchema greet_text FLOWS_SCHEMA_FILE].
Proof.
  exact (read_from_string_schema_rejected (C := toy_rejecting)
           greet_text schema_error eq_refl).
Defined.

(** X8, a run: a text that is not YAML. *)
Lemma read_from_string_parse_failure_witness :
  outcome (read_from_string (C := toy) "{" false) = Raise yaml_syntax_error /\
  calls (read_from_string (C := toy) "{" false)
  = [CallValidateSchema "{" FLOWS_SCHEMA_FILE; CallReadYaml "{"].
Proof.
  exact (read_from_string_parse_failure (C := toy) "{" false
           yaml_syntax_error (fun _ => eq_refl) eq_refl).
Defined.

(** X9, a run: an empty sequence read without validation. *)
Lemma read_from_string_not_mapping_witness :
  outcome (read_from_string (C := toy) "[]" true)
  = builtin_error AttributeError /\
  calls (read_from_string (C := toy) "[]" true) = [CallReadYaml "[]"].
Proof.
  exact (read_from_string_not_mapping (C := toy) "[]" true (VList [])
           (fun H => match Bool.diff_true_false H with end) eq_refl eq_refl).
Defined.

(** X10, a run on the document of the flow [greet]. *)
Lemma read_from_string_validated_witness :
  outcome (read_from_string (C := toy) greet_text true) = Ok [greet].
Proof.
  exact (proj2 (proj2 (read_from_string_validated (C := toy)
                         greet_text [greet] eq_refl))).
Defined.

(** X11, a run: flows that are built and then found invalid. *)
Lemma read_from_string_semantic_failure_witness :
  outcome (read_from_string (C := toy_invalid) greet_text false)
  = Raise semantic_error.
Proof.
  exact (proj1 (read_from_string_semantic_failure (C := toy_invalid)
                  greet_text [greet] semantic_error
                  eq_refl eq_refl eq_refl)).
Defined.

(** X12, a run on the file of the flow [greet]. *)
Lemma read_from_file_success_witness :
  outcome (read_from_file (C := toy) (PathText "flows.yml") false)
  = Ok [greet].
Proof.
  exact (proj1 (read_from_file_success (C := toy) (PathText "flows.yml")
                  false greet_text [greet] eq_refl eq_refl)).
Defined.

(** X13, a run on a file that does not exist. *)
Lemma read_from_file_unreadable_witness :
  calls (read_from_file (C := toy) (PathText "missing.yml") false)
  = [CallReadFile (PathText "missing.yml") "utf-8"].
Proof.
  exact (proj1 (read_from_file_unreadable (C := toy)
                  (PathText "missing.yml") false file_io_error eq_refl)).
Defined.

(** X14, a run on a file that does not exist. *)
Lemma read_from_file_domain_failure_witness :
  exists e',
    outcome (read_from_file (C := toy) (PathObj "missing.yml") false)
    = Raise e' /\
    is_YamlException e' = true /\
    option_map str_of_path (exc_filename e') = Some "missing.yml".
Proof.
  destruct (read_from_file_domain_failure (C := toy) (PathObj "missing.yml")
              false file_io_error (or_introl eq_refl) eq_refl)
    as (e' & Hout & Hyaml & Hname & _).
  exists e'. repeat split; assumption.
Defined.

(** X15, a run on a file that holds a sequence. *)
Lemma read_from_file_not_mapping_witness :
  outcome (read_from_file (C := toy_list_file) (PathText "list.yml") true)
  = builtin_error AttributeError.
Proof.
  exact (read_from_file_not_mapping (C := toy_list_file)
           (PathText "list.yml") "[]" (VList []) eq_refl eq_refl eq_refl).
Defined.

(* ================================================================== *)
(** * Further properties of the writer and of the other entry points *)

Lemma dict_set_keys_In (d : dict) (k k' : string) (v : value) :
  In k' (dict_keys (dict_set d k v)) <-> k' = k \/ In k' (dict_keys d).
Proof.
  destruct (in_dec string_dec k (dict_keys d)) as [Hin|Hout].
  - rewrite dict_set_keys by exact Hin. split; [tauto|].
    intros [->|H]; assumption.
  - rewrite dict_set_fresh by exact Hout.
    unfold dict_keys. rewrite map_app, in_app_iff. simpl.
    split; [intros [H|[H|[]]] | intros [H|H]]; auto.
Qed.

Lemma dict_remove_lookup_other (d : dict) (k k' : string) :
  k' <> k -> dict_lookup (dict_remove d k) k' = dict_lookup d k'.
Proof.
  intros Hne. induction d as [|[k0 v0] d IH]; simpl; [reflexivity|].
  destruct (String.eqb_spec k0 k) as [->|Hk0]; simpl.
  - destruct (String.eqb_spec k k'); [congruence | reflexivity].
  - now rewrite IH.
Qed.

Lemma dict_remove_lookup_same (d : dict) (k : string) :
  NoDup (dict_keys d) -> dict_lookup (dict_remove d k) k = None.
Proof.
  induction d as [|[k0 v0] d IH]; simpl; intros Hnd; [reflexivity|].
  inversion Hnd as [|? ? Hfresh Hnd']; subst.
  destruct (String.eqb_spec k0 k) as [->|Hk0]; simpl.
  - now apply dict_lookup_None.
  - destruct (String.eqb_spec k0 k); [contradiction | now apply IH].
Qed.

Section WriterEdges.
Context {C : Collaborators}.

Lemma dumps_loop_KeyError (flows : list Flow) (acc : dict) :
  (exists f, In f flows /\ ~ In "id" (dict_keys (as_json f))) ->
  dumps_loop flows acc = builtin_error KeyError.
Proof.
  revert acc. induction flows as [|f flows IH]; intros acc (g & Hin & Hg).
  - destruct Hin.
  - destruct (in_dec string_dec "id" (dict_keys (as_json f))) as [Hid|Hid].
    + rewrite dumps_loop_step by exact Hid. apply IH.
      destruct Hin as [<-|Hin]; [contradiction | now exists g].
    + simpl. unfold dict_del.
      apply dict_lookup_None in Hid. now rewrite Hid.
Qed.

Lemma has_id_dec (flows : list Flow) :
  (forall f, In f flows -> In "id" (dict_keys (as_json f))) \/
  (exists f, In f flows /\ ~ In "id" (dict_keys (as_json f))).
Proof.
  induction flows as [|f flows [IH|(g & Hin & Hg)]].
  - left. intros f [].
  - destruct (in_dec string_dec "id" (dict_keys (as_json f))) as [Hid|Hid].
    + left. intros g [<-|Hg]; [exact Hid | now apply IH].
    + right. exists f. split; [now left | exact Hid].
  - right. exists g. split; [now right | exact Hg].
Qed.

(** X16: [dumps] raises exactly when the mapping form of some flow has no
    [id] field to delete, and what it raises then is [KeyError]; otherwise
    it returns a text. *)
Theorem dumps_KeyError (flows : list Flow) :
  (dumps flows = builtin_error KeyError <->
   exists f, In f flows /\ ~ In "id" (dict_keys (as_json f))) /\
  ((exists text, dumps flows = Ok text) <->
   forall f, In f flows -> In "id" (dict_keys (as_json f))).
Proof.
  assert (Hbad : (exists f, In f flows /\ ~ In "id" (dict_keys (as_json f))) ->
                 dumps flows = builtin_error KeyError).
  { intros H. unfold dumps. now rewrite dumps_loop_KeyError. }
  assert (Hgood : (forall f, In f flows -> In "id" (dict_keys (as_json f))) ->
                  exists text, dumps flows = Ok text).
  { intros H. destruct (dumps_loop_ok flows [] H) as [dump Hd].
    unfold dumps. rewrite Hd. eexists. reflexivity. }
  split; split; auto.
  - intros Hk. destruct (has_id_dec flows) as [H|H]; [|exact H].
    destruct (Hgood H) as [text Ht]. rewrite Ht in Hk. discriminate.
  - intros [text Ht]. destruct (has_id_dec flows) as [H|H]; [exact H|].
    rewrite (Hbad H) in Ht. discriminate.
Qed.

Lemma dumps_loop_keys (flows : list Flow) (acc dump : dict) (k : string) :
  dumps_loop flows acc = Ok dump ->
  (In k (dict_keys dump) <->
   In k (dict_keys acc) \/ In k (map flow_id flows)).
Proof.
  revert acc. induction flows as [|f flows IH]; intros acc; simpl.
  - intros [= ->]. tauto.
  - destruct (dict_del (as_json f) "id") as [body|e]; simpl; [|discriminate].
    intros Hloop. rewrite (IH _ Hloop), dict_set_keys_In.
    split; [intros [[->|H]|H] | intros [H|[<-|H]]]; auto.
Qed.

Lemma dumps_loop_last
    (before after : list Flow) (f : Flow) (acc dump : dict) :
  dumps_loop (before ++ f :: after) acc = Ok dump ->
  ~ In (flow_id f) (map flow_id after) ->
  dict_lookup dump (flow_id f)
  = Some (VDict (dict_remove (as_json f) "id")).
Proof.
  intros Hloop Hlast. rewrite dumps_loop_app in Hloop.
  destruct (dumps_loop before acc) as [acc'|e]; [|discriminate].
  cbn [bind dumps_loop] in Hloop. unfold dict_del in Hloop.
  destruct (dict_lookup (as_json f) "id"); [|discriminate].
  cbn [bind] in Hloop.
  rewrite (dumps_loop_untouched _ _ _ _ Hloop Hlast).
  apply dict_lookup_set_same.
Qed.

Lemma last_with_id (flows : list Flow) (k : string) :
  In k (map flow_id flows) ->
  exists before f after,
    flows = (before ++ f :: after)%list /\ flow_id f = k /\
    ~ In k (map flow_id after).
Proof.
  induction flows as [|f flows IH]; intros Hin; [destruct Hin|].
  destruct (in_dec string_dec k (map flow_id flows)) as [Hrest|Hrest].
  - destruct (IH Hrest) as (before & g & after & -> & Hg & Hafter).
    now exists (f :: before), g, after.
  - destruct Hin as [Hf|Hin]; [|contradiction].
    now exists [], f, flows.
Qed.

(** X17: the mapping [dumps] writes under [flows] has the identifiers of
    the flows as its keys, each of them once; it has no more entries than
    there are flows, and as many exactly when no identifier repeats. *)
Theorem dumps_keys (flows : list Flow) (dump : dict) :
  dumps_loop flows [] = Ok dump ->
  dumps flows
  = Ok (dump_obj_as_yaml_to_string (VDict [(KEY_FLOWS, VDict dump)])) /\
  NoDup (dict_keys dump) /\
  (forall k, In k (dict_keys dump) <-> In k (map flow_id flows)) /\
  length dump <= length flows /\
  (length dump = length flows <-> NoDup (map flow_id flows)).
Proof.
  intros Hloop.
  assert (Hnd : NoDup (dict_keys dump))
    by (apply (dumps_loop_NoDup flows [] dump Hloop); constructor).
  assert (Hkeys : forall k, In k (dict_keys dump) <-> In k (map flow_id flows)).
  { intros k. rewrite (dumps_loop_keys flows [] dump k Hloop). simpl. tauto. }
  assert (Hlen : length dump <= length flows).
  { rewrite <- (length_map fst dump), <- (length_map flow_id flows).
    apply NoDup_incl_length; [exact Hnd|]. intros k. apply Hkeys. }
  split; [unfold dumps; now rewrite Hloop|].
  split; [exact Hnd|]. split; [exact Hkeys|]. split; [exact Hlen|].
  split.
  - intros Heq. apply NoDup_incl_NoDup with (l := dict_keys dump); [exact Hnd | |].
    + unfold dict_keys. rewrite !length_map. now rewrite Heq.
    + intros k. apply Hkeys.
  - intros Hids.
    assert (Hid : forall f, In f flows -> In "id" (dict_keys (as_json f))).
    { destruct (has_id_dec flows) as [H|H]; [exact H|].
      rewrite (dumps_loop_KeyError flows [] H) in Hloop. discriminate. }
    rewrite dumps_loop_distinct in Hloop; [|exact Hids | intros f _ [] | exact Hid].
    injection Hloop as <-. simpl. now rewrite length_map.
Qed.

(** X18: every entry of the written mapping comes from the last flow that
    has its key as identifier; its value is the mapping form of that flow
    without the [id] field and with every other field unchanged. *)
Theorem dumps_entries
    (flows : list Flow) (dump : dict) (k : string) (v : value) :
  (forall f, In f flows -> NoDup (dict_keys (as_json f))) ->
  dumps_loop flows [] = Ok dump ->
  In (k, v) dump ->
  exists before f after body,
    flows = (before ++ f :: after)%list /\
    flow_id f = k /\
    ~ In k (map flow_id after) /\
    v = VDict body /\
    dict_lookup body "id" = None /\
    forall field, field <> "id" ->
                  dict_lookup body field = dict_lookup (as_json f) field.
Proof.
  intros Hjson Hloop Hin.
  assert (Hnd : NoDup (dict_keys dump))
    by (apply (dumps_loop_NoDup flows [] dump Hloop); constructor).
  assert (Hk : In k (map flow_id flows)).
  { assert (Hkey : In k (dict_keys dump))
      by (change k with (fst (k, v)); now apply in_map).
    apply (dumps_loop_keys flows [] dump k Hloop) in Hkey.
    destruct Hkey as [[]|Hkey]. exact Hkey. }
  destruct (last_with_id flows k Hk) as (before & f & after & Hsplit & Hf & Ha).
  exists before, f, after, (dict_remove (as_json f) "id").
  repeat split; try assumption.
  - subst flows k.
    pose proof (dumps_loop_last before after f [] dump Hloop Ha) as Hlook.
    rewrite (In_dict_lookup _ _ _ Hnd Hin) in Hlook. congruence.
  - apply dict_remove_lookup_same. apply Hjson. subst flows.
    apply in_or_app. right. now left.
  - intros field Hne. now apply dict_remove_lookup_other.
Qed.

End WriterEdges.

(** X16, a run: flows whose mapping form has no [id]. *)
Lemma dumps_KeyError_witness :
  dumps (C := toy_without_id) [greet] = builtin_error KeyError.
Proof.
  apply (proj2 (proj1 (dumps_KeyError (C := toy_without_id) [greet]))).
  exists greet. split; [now left|].
  simpl. intros [H|[]]. discriminate H.
Defined.

(** X17, a run: three flows, two of them named [greet]. *)
Lemma dumps_keys_witness :
  NoDup ["greet"; "farewell"] /\
  List.length [("greet", VDict [("description", VStr "say hello twice")]);
               ("farewell", VDict [("description", VStr "say bye")])]
  <= List.length [greet; greet_again; farewell].
Proof.
  destruct (dumps_keys (C := toy) [greet; greet_again; farewell]
              [("greet", VDict [("description", VStr "say hello twice")]);
               ("farewell", VDict [("description", VStr "say bye")])]
              eq_refl) as (_ & Hnd & _ & Hlen & _).
  split; [exact Hnd | exact Hlen].
Defined.

(** X18, a run: the entry written for two flows named [greet]. *)
Lemma dumps_entries_witness :
  exists before f after body,
    [greet; greet_again] = (before ++ f :: after)%list /\
    toy_id f = "greet" /\
    ~ In "greet" (map toy_id after) /\
    VDict [("description", VStr "say hello twice")] = VDict body /\
    dict_lookup body "id" = None /\
    forall field, field <> "id" ->
                  dict_lookup body field = dict_lookup (toy_as_json f) field.
Proof.
  apply (dumps_entries (C := toy) [greet; greet_again]
           [("greet", VDict [("description", VStr "say hello twice")])]
           "greet" (VDict [("description", VStr "say hello twice")])).
  - intros f [<-|[<-|[]]]; repeat constructor; simpl;
      intuition discriminate.
  - reflexivity.
  - now left.
Defined.

Section EntryPointProperties.
Context {C : Collaborators}.
Variable write_text_file : string -> pathlike -> result unit.
Variable is_likely_yaml_file : pathlike -> result bool.
Variable is_key_in_yaml : pathlike -> string -> result bool.
Variable dedent : string -> string.

(** X19: [dump] writes the file once, with the text of [dumps], and its
    outcome is that of the write; when [dumps] raises because a flow has no
    [id] field, [dump] raises the [KeyError] and writes nothing. *)
Theorem dump_writes_dumps (flows : list Flow) (filename : pathlike) :
  ((exists f, In f flows /\ ~ In "id" (dict_keys (as_json f))) ->
   dump write_text_file flows filename = (builtin_error KeyError, [])) /\
  ((forall f, In f flows -> In "id" (dict_keys (as_json f))) ->
   exists text,
     dumps flows = Ok text /\
     dump write_text_file flows filename
     = (write_text_file text filename, [CallWriteTextFile text filename])).
Proof.
  unfold dump. split.
  - intros Hbad. unfold dumps. now rewrite dumps_loop_KeyError.
  - intros Hid. destruct (dumps_loop_ok flows [] Hid) as [d Hd].
    unfold dumps. rewrite Hd. cbn [bind]. eexists. split; reflexivity.
Qed.

(** X20: [is_flows_file] returns [True] exactly when the file looks like
    YAML and has the key [flows]; for a file that does not look like YAML
    it returns [False] without looking into the file; and it raises only
    what one of the two checks raises. *)
Theorem is_flows_file_cases (file_path : pathlike) :
  let run := is_flows_file is_likely_yaml_file is_key_in_yaml file_path in
  (fst run = Ok true <->
   is_likely_yaml_file file_path = Ok true /\
   is_key_in_yaml file_path "flows" = Ok true) /\
  (is_likely_yaml_file file_path = Ok false ->
   run = (Ok false, [CallIsLikelyYamlFile file_path])) /\
  (forall e, fst run = Raise e ->
     is_likely_yaml_file file_path = Raise e \/
     (is_likely_yaml_file file_path = Ok true /\
      is_key_in_yaml file_path "flows" = Raise e)).
Proof.
  cbv zeta. unfold is_flows_file, KEY_FLOWS.
  destruct (is_likely_yaml_file file_path) as [[|]|e0]; cbn [fst].
  - repeat split; try tauto; try discriminate.
  - repeat split; try discriminate.
    intros [H _]. discriminate H.
  - repeat split; try discriminate.
    + intros [H _]. discriminate H.
    + intros e [= ->]. now left.
Qed.

(** X21: [flows_from_str] never skips validation: its first call is the
    schema check of the dedented text, and flows it returns have passed
    the schema check and their own validation. *)
Theorem flows_from_str_validates (yaml_str : string) :
  (exists rest,
     calls (flows_from_str dedent yaml_str)
     = CallValidateSchema (dedent yaml_str) FLOWS_SCHEMA_FILE :: rest) /\
  (forall fl,
     outcome (flows_from_str dedent yaml_str) = Ok fl ->
     validate_yaml_with_jsonschema (dedent yaml_str) FLOWS_SCHEMA_FILE
       humanize_flow_error = Ok tt /\
     FlowsList_validate fl = Ok tt).
Proof.
  unfold flows_from_str. split.
  - rewrite read_from_string_calls.
    destruct (validate_yaml_with_jsonschema (dedent yaml_str)
                FLOWS_SCHEMA_FILE humanize_flow_error);
      eexists; reflexivity.
  - intros fl Hfl.
    exact (read_from_string_ok_inv _ _ Hfl).
Qed.

End EntryPointProperties.

(** X19, a run: the flow [greet] written to a file. *)
Lemma dump_writes_dumps_witness :
  exists text,
    dumps (C := toy) [greet] = Ok text /\
    dump (C := toy) (fun _ _ => Ok tt) [greet] (PathText "out.yml")
    = (Ok tt, [CallWriteTextFile text (PathText "out.yml")]).
Proof.
  apply (proj2 (dump_writes_dumps (C := toy) (fun _ _ => Ok tt)
                  [greet] (PathText "out.yml"))).
  intros f [<-|[]]. simpl. tauto.
Defined.

(** X20, a run: a file that does not look like YAML. *)
Lemma is_flows_file_cases_witness :
  is_flows_file
    (fun p => Ok (String.eqb (str_of_path p) "flows.yml"))
    (fun _ _ => Raise yaml_syntax_error) (PathText "notes.txt")
  = (Ok false, [CallIsLikelyYamlFile (PathText "notes.txt")]).
Proof.
  exact (proj1 (proj2 (is_flows_file_cases
                         (fun p => Ok (String.eqb (str_of_path p) "flows.yml"))
                         (fun _ _ => Raise yaml_syntax_error)
                         (PathText "notes.txt"))) eq_refl).
Defined.

(** X21, a run on the document of the flow [greet]. *)
Lemma flows_from_str_validates_witness :
  validate_yaml_with_jsonschema (Collaborators := toy) greet_text
    FLOWS_SCHEMA_FILE humanize_flow_error = Ok tt /\
  FlowsList_validate (Collaborators := toy) [greet] = Ok tt.
Proof.
  exact (proj2 (flows_from_str_validates (C := toy) (fun s => s) greet_text)
           [greet] eq_refl).
Defined.
